(** * GitHub metadata connector: client, activities and workflow

    A shallow embedding of [app/clients.py], [app/activities.py] and
    [app/workflow.py].  Python values are a small universe of JSON-like
    data, dictionaries are finite maps with string keys, exceptions are
    an error result, and the outside world (process environment, the
    GitHub REST API, output files) is an explicit state that every
    activity threads through.  Logging and the observability decorators
    have no effect on results and are left out. *)

From Stdlib Require Import ZArith String List Lia.
From Stdlib Require Import Floats.SpecFloat.
From stdpp Require Import gmap strings list fin_maps pretty.

#[local] Set Warnings "-register-all".
#[local] Open Scope string_scope.
#[local] Open Scope list_scope.
#[local] Open Scope Z_scope.

(** ** Python values *)

(** What [json.loads] can produce, which is also everything the program
    stores in its dictionaries.  A [float] is an IEEE 754 value. *)
Inductive value : Type :=
| VNone
| VBool (b : bool)
| VInt (z : Z)
| VFloat (f : spec_float)
| VStr (s : string)
| VList (l : list value)
| VDict (d : gmap string value).

(** Exceptions the program can meet.  [AttributeError ty attr] is
    "'ty' object has no attribute 'attr'"; [TypeError ty what] is
    "'ty' object is not iterable" / "object of type 'ty' has no len()".
    [TransportError] stands for whatever [client.get] itself raises
    (an URL the client refuses, a header it cannot write, no
    connection, a timeout), [HTTPStatusError] for what
    [raise_for_status] raises, [JSONDecodeError] for whatever
    [response.json()] raises. *)
Inductive exn : Type :=
| ValueError (msg : string)
| AttributeError (ty attr : string)
| TypeError (ty what : string)
| JSONDecodeError
| TransportError (msg : string)
| HTTPStatusError (status : Z).

Inductive result (A : Type) : Type :=
| Ok (a : A)
| Raise (e : exn).
Arguments Ok {A} a.
Arguments Raise {A} e.

#[export] Instance result_ret : MRet result := @Ok.
#[export] Instance result_bind : MBind result :=
  fun A B f r => match r with Ok a => f a | Raise e => Raise e end.

Definition is_Ok {A} (r : result A) : bool :=
  match r with Ok _ => true | Raise _ => false end.

Definition type_name (v : value) : string :=
  match v with
  | VNone => "NoneType"
  | VBool _ => "bool"
  | VInt _ => "int"
  | VFloat _ => "float"
  | VStr _ => "str"
  | VList _ => "list"
  | VDict _ => "dict"
  end.

(** [bool(v)]: None, False, zero, the empty string and empty
    containers are falsy, everything else is truthy. *)
Definition truthy (v : value) : bool :=
  match v with
  | VNone => false
  | VBool b => b
  | VInt z => negb (Z.eqb z 0)
  | VFloat f => match f with S754_zero _ => false | _ => true end
  | VStr s => negb (String.eqb s "")
  | VList l => negb (Nat.eqb (length l) 0)
  | VDict d => negb (Nat.eqb (size d) 0)
  end.

(** [a or b], with [b] already evaluated. *)
Definition py_or (a b : value) : value := if truthy a then a else b.

(** [a or <b>], where evaluating [b] may raise and is skipped when [a]
    is truthy. *)
Definition or_else (a : value) (b : result value) : result value :=
  if truthy a then Ok a else b.

(** [d.get(k, default)]; only a dict has the method. *)
Definition py_get (d : value) (k : string) (default : value) : result value :=
  match d with
  | VDict m => Ok (match m !! k with Some v => v | None => default end)
  | _ => Raise (AttributeError (type_name d) "get")
  end.

(** [d.get(k) or alt] and [d.get(k, default) or alt] *)
Definition get_or (d : value) (k : string) (default alt : value)
  : result value :=
  v ← py_get d k default; Ok (py_or v alt).

(** [len(v)].  A [str] is taken as a sequence of 8-bit characters. *)
Definition py_len (v : value) : result Z :=
  match v with
  | VStr s => Ok (Z.of_nat (String.length s))
  | VList l => Ok (Z.of_nat (length l))
  | VDict m => Ok (Z.of_nat (size m))
  | _ => Raise (TypeError (type_name v) "len")
  end.

Fixpoint chars (s : string) : list value :=
  match s with
  | EmptyString => []
  | String a s' => VStr (String a EmptyString) :: chars s'
  end.

(** [for x in v]: the items of a list, the keys of a dict, the
    characters of a str. *)
Definition py_iter (v : value) : result (list value) :=
  match v with
  | VList l => Ok l
  | VDict m => Ok (VStr <$> (map_to_list m).*1)
  | VStr s => Ok (chars s)
  | _ => Raise (TypeError (type_name v) "iter")
  end.

(** A dict display [{k1: v1, ..., kn: vn}]: later entries win. *)
Definition dict_literal (kvs : list (string * value)) : value :=
  VDict (foldl (fun m kv => <[kv.1 := kv.2]> m) ∅ kvs).

(** A list comprehension [[f(x) for x in xs]]: left to right, the
    first exception ends it. *)
Fixpoint comprehension {A B} (f : A -> result B) (xs : list A) : result (list B) :=
  match xs with
  | [] => Ok []
  | x :: xs' => y ← f x; ys ← comprehension f xs'; Ok (y :: ys)
  end.

(** [await asyncio.gather(a, b)] once both awaitables have an outcome:
    both results when both succeed, otherwise the exception that was
    raised first ([first_raised_first] says whether that was [a]'s). *)
Definition gather (first_raised_first : bool) (a b : result value)
  : result (value * value) :=
  match a, b with
  | Ok x, Ok y => Ok (x, y)
  | Raise e, Ok _ => Raise e
  | Ok _, Raise e => Raise e
  | Raise ea, Raise eb => Raise (if first_raised_first then ea else eb)
  end.

(** An f-string, kept as its literal pieces and the values put in the
    holes: [f"/users/{username}"] is [[FLit "/users/"; FVal username]]. *)
Inductive fpart : Type :=
| FLit (s : string)
| FVal (v : value).

(** ** The outside world *)

(** The [httpx.AsyncClient] the program configures. *)
Record AsyncClient : Type := {
  base_url : string;
  headers : list (string * list fpart);
  timeout : Z
}.

(** One call of [client.get]: the session it goes through, the URL
    and the query parameters it is given. *)
Record Request : Type := {
  req_client : AsyncClient;
  req_url : list fpart;
  req_params : list (string * Z)
}.

(** A response: its status and the value [response.json()] returns
    for its body ([None] when [response.json()] raises: the body is
    not JSON, or it holds a number the interpreter refuses to read). *)
Record Response : Type := {
  status_code : Z;
  body : option value
}.

(** How a call of [client.get] ends: it raises and there is no
    response (the client refuses the URL or a header before anything
    goes out, connection refused, timeout, ...), or it returns a
    response. *)
Inductive Reply : Type :=
| NoResponse (msg : string)
| Answer (r : Response).

(** Process environment, the upstream API in its current state, the
    calls of [client.get] made so far (oldest first) and the output
    files.  A file holds the value that was dumped into it. *)
Record World (Srv : Type) : Type := {
  env : gmap string string;
  upstream : Srv;
  sent : list Request;
  files : gmap string value
}.
Arguments env {Srv} w.
Arguments upstream {Srv} w.
Arguments sent {Srv} w.
Arguments files {Srv} w.

(** [os.getenv(name)] *)
Definition getenv (e : gmap string string) (name : string) : value :=
  match e !! name with
  | Some s => VStr s
  | None => VNone
  end.

(** [response.raise_for_status()]: any status outside 2xx raises. *)
Definition raise_for_status (r : Response) : result unit :=
  if (200 <=? status_code r) && (status_code r <? 300) then Ok tt
  else Raise (HTTPStatusError (status_code r)).

(** [response.json()] *)
Definition response_json (r : Response) : result value :=
  match body r with
  | Some v => Ok v
  | None => Raise JSONDecodeError
  end.

(** [await client.get(url, params=params)]: the call is recorded, and
    [serve] is all that happens behind it, the client library making
    the request out of its arguments, the transport and the upstream,
    which moves on to its next state.  A call the library gives up
    before anything goes out is a [NoResponse] of [serve]. *)
Definition http_get {Srv} (serve : Srv -> Request -> Reply * Srv)
    (c : AsyncClient) (url : list fpart) (params : list (string * Z))
    (w : World Srv) : result Response * World Srv :=
  let rq := {| req_client := c; req_url := url; req_params := params |} in
  let '(reply, srv) := serve (upstream w) rq in
  let w' := {| env := env w; upstream := srv;
               sent := sent w ++ [rq]; files := files w |} in
  match reply with
  | NoResponse msg => (Raise (TransportError msg), w')
  | Answer r => (Ok r, w')
  end.

(** [with open(path, "w") as f: json.dump(data, f, indent=4)]: the
    file is replaced as a whole.  Writing is taken to succeed. *)
Definition dump_file {Srv} (path : string) (data : value) (w : World Srv)
  : World Srv :=
  {| env := env w; upstream := upstream w;
     sent := sent w; files := <[path := data]> (files w) |}.

(** ** app/clients.py *)

Module GitHubClient.

(** The instance attributes [self.pat] and [self.client]. *)
Record t : Type := {
  pat : value;
  client : option AsyncClient
}.

Definition __init__ (pat : value) : t :=
  {| pat := pat; client := None |}.

(** [httpx.AsyncClient(...)] writes the header values as ASCII and
    raises on a token that has other characters; the session is
    modelled for the tokens it can be opened with, and a session is
    its configuration. *)
Definition _get_client (self : t) : AsyncClient * t :=
  match client self with
  | Some c => (c, self)
  | None =>
      let headers := [("Accept", [FLit "application/vnd.github.v3+json"])] in
      let headers :=
        if truthy (pat self)
        then headers ++ [("Authorization", [FLit "Bearer "; FVal (pat self)])]
        else headers in
      let c := {| base_url := "https://api.github.com";
                  headers := headers;
                  timeout := 30 |} in
      (c, {| pat := pat self; client := Some c |})
  end.

Definition _normalize_user_json (user_json : value) : result value :=
  name ← (v ← py_get user_json "name" VNone;
          or_else v (l ← py_get user_json "login" VNone;
                     Ok (py_or l (VStr "N/A"))));
  node_id ← get_or user_json "node_id" VNone (VStr "N/A");
  profile_url ← get_or user_json "html_url" VNone (VStr "N/A");
  avatar_url ← get_or user_json "avatar_url" VNone (VStr "N/A");
  type ← get_or user_json "type" VNone (VStr "N/A");
  company ← get_or user_json "company" VNone (VStr "N/A");
  location ← get_or user_json "location" VNone (VStr "N/A");
  email ← get_or user_json "email" VNone (VStr "N/A");
  blog ← get_or user_json "blog" VNone (VStr "N/A");
  twitter_username ← get_or user_json "twitter_username" VNone (VStr "N/A");
  created_at ← get_or user_json "created_at" VNone (VStr "N/A");
  followers_url ← get_or user_json "followers_url" VNone (VStr "N/A");
  following_url ← get_or user_json "following_url" VNone (VStr "N/A");
  bio ← get_or user_json "bio" VNone (VStr "No bio provided.");
  followers ← get_or user_json "followers" (VInt 0) (VInt 0);
  following ← get_or user_json "following" (VInt 0) (VInt 0);
  public_repos ← get_or user_json "public_repos" (VInt 0) (VInt 0);
  public_gists ← get_or user_json "public_gists" (VInt 0) (VInt 0);
  Ok (dict_literal [
    ("name", name);
    ("node_id", node_id);
    ("profile_url", profile_url);
    ("avatar_url", avatar_url);
    ("type", type);
    ("company", company);
    ("location", location);
    ("email", email);
    ("blog", blog);
    ("twitter_username", twitter_username);
    ("created_at", created_at);
    ("followers_url", followers_url);
    ("following_url", following_url);
    ("bio", bio);
    ("followers", followers);
    ("following", following);
    ("public_repos", public_repos);
    ("public_gists", public_gists)
  ]).

(** One item of the comprehension in [fetch_all_repository_data]. *)
Definition normalized_repo (repo : value) : result value :=
  name ← py_get repo "name" VNone;
  description ← py_get repo "description" VNone;
  language ← py_get repo "language" VNone;
  star_count ← py_get repo "stargazers_count" VNone;
  fork_count ← py_get repo "forks_count" VNone;
  issue_count ← py_get repo "open_issues_count" VNone;
  created_at ← py_get repo "created_at" VNone;
  updated_at ← py_get repo "updated_at" VNone;
  url ← py_get repo "html_url" VNone;
  Ok (dict_literal [
    ("name", name);
    ("description", description);
    ("language", language);
    ("star_count", star_count);
    ("fork_count", fork_count);
    ("issue_count", issue_count);
    ("created_at", created_at);
    ("updated_at", updated_at);
    ("url", url)
  ]).

Definition per_page : Z := 100.

Section Requests.
Context {Srv : Type} (serve : Srv -> Request -> Reply * Srv).

(** Both [except] clauses log and re-raise, so an exception leaves the
    method as it was raised. *)
Definition fetch_user_profile_data (self : t) (username : value)
    (w : World Srv) : result value * t * World Srv :=
  let '(client, self) := _get_client self in
  let user_endpoint := [FLit "/users/"; FVal username] in
  let '(got, w) := http_get serve client user_endpoint [] w in
  (response ← got;
   _ ← raise_for_status response;
   user_json ← response_json response;
   _normalize_user_json user_json,
   self, w).

(** The body of [for page_num in itertools.count(1)], from [page_num]
    on.  The loop has no bound of its own: [fuel] is the number of
    pages the model is willing to request, and [None] says the loop was
    still running when it ran out. *)
Fixpoint fetch_pages (fuel : nat) (client : AsyncClient) (username : value)
    (page_num : Z) (all_repos : list value) (w : World Srv)
  : option (result (list value)) * World Srv :=
  match fuel with
  | O => (None, w)
  | S fuel =>
      let repos_endpoint := [FLit "/users/"; FVal username; FLit "/repos"] in
      let params := [("page", page_num); ("per_page", per_page)] in
      let '(got, w) := http_get serve client repos_endpoint params w in
      match (response ← got;
             _ ← raise_for_status response;
             response_json response) with
      | Raise e => (Some (Raise e), w)
      | Ok page_data =>
          if negb (truthy page_data) then (Some (Ok all_repos), w)
          else
            match (repos ← py_iter page_data;
                   comprehension normalized_repo repos) with
            | Raise e => (Some (Raise e), w)
            | Ok normalized_page_repos =>
                fetch_pages fuel client username (page_num + 1)
                  (all_repos ++ normalized_page_repos) w
            end
      end
  end.

Definition fetch_all_repository_data (fuel : nat) (self : t) (username : value)
    (w : World Srv) : option (result (list value)) * t * World Srv :=
  let '(client, self) := _get_client self in
  let '(r, w) := fetch_pages fuel client username 1 [] w in
  (r, self, w).

End Requests.

End GitHubClient.

(** ** app/activities.py *)

Definition _resolve_credentials (workflow_args : value)
    (environ : gmap string string) : result (value * value) :=
  username ← (if truthy workflow_args
              then py_get (py_or workflow_args (VDict ∅)) "username" VNone
              else Ok VNone);
  pat ← (if truthy workflow_args
         then py_get (py_or workflow_args (VDict ∅)) "pat" VNone
         else Ok VNone);
  let username :=
    if negb (truthy username) then getenv environ "GITHUB_USERNAME"
    else username in
  let pat :=
    if negb (truthy pat) then getenv environ "GITHUB_PAT" else pat in
  Ok (username, pat).

Module GitHubActivities.

Section Activities.
Context {Srv : Type} (serve : Srv -> Request -> Reply * Srv).

(** The [except Exception] clause logs and re-raises. *)
Definition preflight_check (workflow_args : value) (w : World Srv)
  : result value * World Srv :=
  match _resolve_credentials workflow_args (env w) with
  | Raise e => (Raise e, w)
  | Ok (effective_username, effective_pat) =>
      if negb (truthy effective_pat)
      then (Raise (ValueError "Personal Access Token (PAT) is missing."), w)
      else if negb (truthy effective_username)
      then (Raise (ValueError "GitHub username is missing."), w)
      else
        let client := GitHubClient.__init__ effective_pat in
        let '(r, _, w) :=
          GitHubClient.fetch_user_profile_data serve client
            effective_username w in
        (_ ← r; Ok VNone, w)
  end.

Definition retrieve_user_profile_activity (workflow_args : value)
    (w : World Srv) : result value * World Srv :=
  match _resolve_credentials workflow_args (env w) with
  | Raise e => (Raise e, w)
  | Ok (effective_username, effective_pat) =>
      let client := GitHubClient.__init__ effective_pat in
      let '(r, _, w) :=
        GitHubClient.fetch_user_profile_data serve client
          effective_username w in
      match r with
      | Raise e => (Raise e, w)
      | Ok user_metadata =>
          let output_file := "github_user_profile.json" in
          (Ok user_metadata, dump_file output_file user_metadata w)
      end
  end.

Definition retrieve_repositories_activity (fuel : nat) (workflow_args : value)
    (w : World Srv) : option (result value) * World Srv :=
  match _resolve_credentials workflow_args (env w) with
  | Raise e => (Some (Raise e), w)
  | Ok (effective_username, effective_pat) =>
      let client := GitHubClient.__init__ effective_pat in
      let '(r, _, w) :=
        GitHubClient.fetch_all_repository_data serve fuel client
          effective_username w in
      match r with
      | None => (None, w)
      | Some (Raise e) => (Some (Raise e), w)
      | Some (Ok repository_metadata) =>
          let output_file := "github_repositories.json" in
          (Some (Ok (VList repository_metadata)),
           dump_file output_file (VList repository_metadata) w)
      end
  end.

Definition extract_keywords_activity (repo_metadata : value) (w : World Srv)
  : result value * World Srv :=
  (Ok repo_metadata, w).

Definition compute_summary_stats_activity (raw_data : value) (w : World Srv)
  : result value * World Srv :=
  match (user_metadata ← py_get raw_data "user_data" (VDict ∅);
         repo_metadata ← py_get raw_data "repo_data" (VList []);
         repo_count ← py_len repo_metadata;
         followers ← get_or user_metadata "followers" (VInt 0) (VInt 0);
         following ← get_or user_metadata "following" (VInt 0) (VInt 0);
         public_gists ← get_or user_metadata "public_gists" (VInt 0) (VInt 0);
         Ok (dict_literal [
           ("total_public_repos", VInt repo_count);
           ("total_followers", followers);
           ("total_following", following);
           ("total_public_gists", public_gists)
         ])) with
  | Raise e => (Raise e, w)
  | Ok summary_stats =>
      let output_file := "github_summary_stats.json" in
      (Ok summary_stats, dump_file output_file summary_stats w)
  end.

End Activities.

End GitHubActivities.

(** ** app/workflow.py *)

Module GitHubWorkflow.

(** The activity methods the workflow hands to the engine. *)
Inductive Activity : Type :=
| preflight_check
| retrieve_user_profile_activity
| retrieve_repositories_activity
| compute_summary_stats_activity.

#[export] Instance Activity_eq_dec : EqDecision Activity.
Proof. solve_decision. Defined.

(** [temporalio.common.RetryPolicy], the two fields the workflow sets. *)
Record RetryPolicy : Type := {
  maximum_attempts : Z;
  backoff_coefficient : Z
}.

(** One [workflow.execute_activity_method(...)] as the engine receives
    it.  Timeouts are in seconds. *)
Record Call : Type := {
  activity : Activity;
  arg : value;
  retry_policy : RetryPolicy;
  start_to_close_timeout : Z;
  heartbeat_timeout : Z
}.

(** The class attributes [GitHubWorkflow] inherits from the SDK's
    [WorkflowInterface]; their values are the SDK's, not this
    program's. *)
Record WorkflowInterface : Type := {
  default_start_to_close_timeout : Z;
  default_heartbeat_timeout : Z
}.

(** Modelled from the spec: the value of
    [WorkflowInterface.default_start_to_close_timeout] is set outside
    this program; the spec says of it only that Preflight, which uses
    it, has a longer step timeout than the 60 seconds of the other
    steps. *)
Definition preflight_timeout_is_longer (self : WorkflowInterface) : Prop :=
  60 < default_start_to_close_timeout self.

(** A call together with what the engine gave back for it. *)
Definition Event : Type := Call * result value.

Section Run.
(** The durable-execution engine: it runs an activity under the
    declared policy and comes back with the activity's result or with
    the failure that ended its last attempt.  When both activities of
    a [gather] fail, [first_raised_first] tells whose failure the
    workflow saw first. *)
Context {Engine : Type}
  (execute_activity_method : Call -> Engine -> result value * Engine)
  (first_raised_first : Engine -> bool).

(** The run, with the calls it made and their outcomes, oldest first.
    An activity failure is not caught, so it ends the run.  The two
    fetches are submitted together: the engine takes them in the order
    they are written, and which of two failures comes first is the
    engine's to say. *)
Definition run (self : WorkflowInterface) (workflow_config : value)
    (g : Engine) : result value * Engine * list Event :=
  let workflow_args := workflow_config in
  let retry_policy := {| maximum_attempts := 6; backoff_coefficient := 2 |} in
  let c0 := {| activity := preflight_check;
               arg := workflow_args;
               retry_policy := retry_policy;
               start_to_close_timeout := default_start_to_close_timeout self;
               heartbeat_timeout := default_heartbeat_timeout self |} in
  let '(r0, g) := execute_activity_method c0 g in
  match r0 with
  | Raise e => (Raise e, g, [(c0, r0)])
  | Ok _ =>
      let c1 := {| activity := retrieve_user_profile_activity;
                   arg := workflow_args;
                   retry_policy := retry_policy;
                   start_to_close_timeout := 60;
                   heartbeat_timeout := default_heartbeat_timeout self |} in
      let c2 := {| activity := retrieve_repositories_activity;
                   arg := workflow_args;
                   retry_policy := retry_policy;
                   start_to_close_timeout := 60;
                   heartbeat_timeout := default_heartbeat_timeout self |} in
      let race := first_raised_first g in
      let '(r1, g) := execute_activity_method c1 g in
      let '(r2, g) := execute_activity_method c2 g in
      match gather race r1 r2 with
      | Raise e => (Raise e, g, [(c0, r0); (c1, r1); (c2, r2)])
      | Ok (user_data, repo_data) =>
          let c3 := {| activity := compute_summary_stats_activity;
                       arg := dict_literal [("user_data", user_data);
                                            ("repo_data", repo_data)];
                       retry_policy := retry_policy;
                       start_to_close_timeout := 60;
                       heartbeat_timeout := default_heartbeat_timeout self |} in
          let '(r3, g) := execute_activity_method c3 g in
          let trace := [(c0, r0); (c1, r1); (c2, r2); (c3, r3)] in
          match r3 with
          | Raise e => (Raise e, g, trace)
          | Ok summary_stats => (Ok VNone, g, trace)
          end
      end
  end.

End Run.

Definition get_activities : list Activity :=
  [preflight_check; retrieve_user_profile_activity;
   retrieve_repositories_activity; compute_summary_stats_activity].

(** Was activity [a] handed to the engine; did a call of it succeed;
    did a call of it fail. *)
Definition invoked (a : Activity) (trace : list Event) : bool :=
  existsb (fun ev => bool_decide (activity ev.1 = a)) trace.

Definition succeeded (a : Activity) (trace : list Event) : bool :=
  existsb (fun ev => bool_decide (activity ev.1 = a) && is_Ok ev.2) trace.

Definition failed (a : Activity) (trace : list Event) : bool :=
  existsb (fun ev => bool_decide (activity ev.1 = a) && negb (is_Ok ev.2)) trace.

End GitHubWorkflow.

(** ** app/types.py *)

(** The keys each [TypedDict] declares, in the order of the class
    bodies. *)
Definition UserMetadata_keys : list string :=
  ["name"; "node_id"; "profile_url"; "avatar_url"; "bio"; "type"; "company";
   "location"; "email"; "blog"; "twitter_username"; "created_at"; "followers";
   "following"; "followers_url"; "following_url"; "public_repos";
   "public_gists"].

Definition RepoMetadata_keys : list string :=
  ["name"; "description"; "language"; "star_count"; "fork_count";
   "issue_count"; "created_at"; "updated_at"; "url"; "auto_tags"].

Definition SummaryStats_keys : list string :=
  ["total_public_repos"; "total_followers"; "total_following";
   "total_public_gists"].

Definition RawData_keys : list string := ["user_data"; "repo_data"].

(** ** main.py *)

Definition APP_NAME : string := "github_connector".

Definition REQUIRED_ENV_VARS : list string := ["GITHUB_USERNAME"; "GITHUB_PAT"].

(** How [_configure_and_validate_environment] ends: [sys.exit(1)]
    after logging the missing variables, or a normal return with the
    environment as [load_dotenv] left it. *)
Inductive Startup : Type :=
| SystemExit (code : Z) (missing_vars : list string)
| Validated (environ : gmap string string).

(** [load_dotenv] belongs to python-dotenv; the function is written
    over whatever it does to the environment. *)
Definition _configure_and_validate_environment
    (load_dotenv : gmap string string -> gmap string string)
    (environ : gmap string string) : Startup :=
  let environ := load_dotenv environ in
  let missing_vars :=
    List.filter (fun v => negb (truthy (getenv environ v))) REQUIRED_ENV_VARS in
  if truthy (VList (VStr <$> missing_vars))
  then SystemExit 1 missing_vars
  else Validated environ.

(** ** Vocabulary of the statements *)

(** The value [d.get(k)] sees in a mapping. *)
Definition field (m : gmap string value) (k : string) : value :=
  match m !! k with Some v => v | None => VNone end.

(** Key [k] is left out of [m] or set to null. *)
Definition omitted_or_null (m : gmap string value) (k : string) : bool :=
  match m !! k with
  | None | Some VNone => true
  | Some _ => false
  end.

(** Key [k] is left out of [m] or holds a falsy value. *)
Definition omitted_or_falsy (m : gmap string value) (k : string) : bool :=
  negb (truthy (field m k)).

(** The plain string fields of a profile: output key and the upstream
    key it is read from. *)
Definition string_fields : list (string * string) :=
  [("node_id", "node_id"); ("profile_url", "html_url");
   ("avatar_url", "avatar_url"); ("type", "type"); ("company", "company");
   ("location", "location"); ("email", "email"); ("blog", "blog");
   ("twitter_username", "twitter_username"); ("created_at", "created_at");
   ("followers_url", "followers_url"); ("following_url", "following_url")].

Definition integer_fields : list string :=
  ["followers"; "following"; "public_repos"; "public_gists"].

(** The record [normalized_repo] builds from a repository mapping. *)
Definition normalized_record (repo : gmap string value) : value :=
  dict_literal [
    ("name", field repo "name");
    ("description", field repo "description");
    ("language", field repo "language");
    ("star_count", field repo "stargazers_count");
    ("fork_count", field repo "forks_count");
    ("issue_count", field repo "open_issues_count");
    ("created_at", field repo "created_at");
    ("updated_at", field repo "updated_at");
    ("url", field repo "html_url")
  ].

(** The records of the pages [pages], in page order. *)
Definition records_of (pages : list (list (gmap string value))) : list value :=
  concat (map (map normalized_record) pages).

(** The request for page [page_num] of a user's repositories, and the
    requests for [n] successive pages from [page_num] on. *)
Definition repos_request (client : AsyncClient) (username : value)
    (page_num : Z) : Request :=
  {| req_client := client;
     req_url := [FLit "/users/"; FVal username; FLit "/repos"];
     req_params := [("page", page_num); ("per_page", 100)] |}.

Fixpoint page_requests (client : AsyncClient) (username : value)
    (page_num : Z) (n : nat) : list Request :=
  match n with
  | O => []
  | S n => repos_request client username page_num
           :: page_requests client username (page_num + 1) n
  end.

Definition profile_request (client : AsyncClient) (username : value)
  : Request :=
  {| req_client := client;
     req_url := [FLit "/users/"; FVal username];
     req_params := [] |}.

(** The session a client with token [pat] opens on first use. *)
Definition session (pat : value) : AsyncClient :=
  (GitHubClient._get_client (GitHubClient.__init__ pat)).1.

(** What the upstream answers to a sequence of requests, and the state
    it is left in. *)
Fixpoint serve_all {Srv} (serve : Srv -> Request -> Reply * Srv)
    (srv : Srv) (rqs : list Request) : list Reply * Srv :=
  match rqs with
  | [] => ([], srv)
  | rq :: rqs =>
      let '(reply, srv) := serve srv rq in
      let '(replies, srv) := serve_all serve srv rqs in
      (reply :: replies, srv)
  end.

(** [reply] is a successful response whose body is the page [items]. *)
Definition serves_page (items : list (gmap string value)) (reply : Reply)
  : Prop :=
  exists response,
    reply = Answer response
    /\ raise_for_status response = Ok tt
    /\ body response = Some (VList (VDict <$> items)).


(** The world after [rqs] were sent and the upstream moved to [srv]. *)
Definition after_requests {Srv} (w : World Srv) (rqs : list Request)
    (srv : Srv) : World Srv :=
  {| env := env w; upstream := srv; sent := sent w ++ rqs; files := files w |}.

(** What [fetch_user_profile_data] makes of the reply to its one
    request. *)
Definition profile_outcome (reply : Reply) : result value :=
  match reply with
  | NoResponse msg => Raise (TransportError msg)
  | Answer response =>
      _ ← raise_for_status response;
      user_json ← response_json response;
      GitHubClient._normalize_user_json user_json
  end.

(** An entry of the input bundle is left out or is a mapping; is left
    out or has a length (a list, as the bundle is typed, or a dict or
    str). *)
Definition absent_or_mapping (o : option value) : bool :=
  match o with
  | None | Some (VDict _) => true
  | Some _ => false
  end.

Definition absent_or_sized (o : option value) : bool :=
  match o with
  | None => true
  | Some v => is_Ok (py_len v)
  end.

(** The summary a profile's three counters and a repository count
    make. *)
Definition summary_of (repo_count : Z) (followers following public_gists : value)
  : value :=
  dict_literal [
    ("total_public_repos", VInt repo_count);
    ("total_followers", followers);
    ("total_following", following);
    ("total_public_gists", public_gists)
  ].

(** The spec's [ConfigurationError] is the [ValueError] of
    [preflight_check]. *)
Definition is_configuration_error (e : exn) : bool :=
  match e with ValueError _ => true | _ => false end.

(** The fields of a repository record: output key and the upstream
    key it is read from. *)
Definition repo_fields : list (string * string) :=
  [("name", "name"); ("description", "description"); ("language", "language");
   ("star_count", "stargazers_count"); ("fork_count", "forks_count");
   ("issue_count", "open_issues_count"); ("created_at", "created_at");
   ("updated_at", "updated_at"); ("url", "html_url")].

(** The keys of a profile that hold text: the name, the plain string
    fields and the bio. *)
Definition text_keys : list string :=
  "name" :: "bio" :: map fst string_fields.

(** The profile [_normalize_user_json] builds from a mapping. *)
Definition normalized_profile (m : gmap string value) : gmap string value :=
  let text src := py_or (field m src) (VStr "N/A") in
  let count key :=
    py_or (match m !! key with Some v => v | None => VInt 0 end) (VInt 0) in
  <["public_gists" := count "public_gists"]>
  (<["public_repos" := count "public_repos"]>
  (<["following" := count "following"]>
  (<["followers" := count "followers"]>
  (<["bio" := py_or (field m "bio") (VStr "No bio provided.")]>
  (<["following_url" := text "following_url"]>
  (<["followers_url" := text "followers_url"]>
  (<["created_at" := text "created_at"]>
  (<["twitter_username" := text "twitter_username"]>
  (<["blog" := text "blog"]>
  (<["email" := text "email"]>
  (<["location" := text "location"]>
  (<["company" := text "company"]>
  (<["type" := text "type"]>
  (<["avatar_url" := text "avatar_url"]>
  (<["profile_url" := text "html_url"]>
  (<["node_id" := text "node_id"]>
  (<["name" := py_or (field m "name")
                 (py_or (field m "login") (VStr "N/A"))]> ∅))))))))))))))))).

(** The keys of a mapping, as a set. *)
Definition keys_of (m : gmap string value) : gset string := dom m.

(** The header names of a session. *)
Definition header_names (c : AsyncClient) : list string := map fst (headers c).

(** A variable is set to a non-empty string. *)
Definition is_set (environ : gmap string string) (name : string) : bool :=
  truthy (getenv environ name).

(** Text of ASCII characters only.  A [str] is kept as 8-bit
    characters; those from 128 on stand for what is not ASCII. *)
Definition ascii_only (s : string) : bool :=
  forallb (fun a => Nat.ltb (Ascii.nat_of_ascii a) 128) (list_ascii_of_string s).

(** A token a session can be opened with: none (no Authorization
    header is written for a falsy token), or ASCII text. *)
Definition encodable_token (pat : value) : bool :=
  match pat with
  | VStr s => ascii_only s
  | _ => negb (truthy pat)
  end.

(** The client holds a session, or one can be opened with its token. *)
Definition can_open_session (self : GitHubClient.t) : bool :=
  match GitHubClient.client self with
  | Some _ => true
  | None => encodable_token (GitHubClient.pat self)
  end.

(** The activities of a trace, in call order. *)
Definition activities_of (trace : list GitHubWorkflow.Event)
  : list GitHubWorkflow.Activity :=
  map (fun ev => GitHubWorkflow.activity ev.1) trace.

(** ** Fixtures *)

(** An upstream that answers the requests it gets from a prepared list
    of replies, in order, whatever is asked. *)
Definition scripted (script : list Reply) (rq : Request)
  : Reply * list Reply :=
  match script with
  | [] => (NoResponse "no reply left", [])
  | reply :: script => (reply, script)
  end.

Definition ok_json (v : value) : Reply :=
  Answer {| status_code := 200; body := Some v |}.

Definition http_error (status : Z) : Reply :=
  Answer {| status_code := status; body := None |}.

(** Repository number [i] as the API lists it, and a page of [n] of
    them from number [i] on. *)
Definition repo_json (i : nat) : gmap string value :=
  {[ "name" := VStr ("repo-" ++ pretty i)%string;
     "stargazers_count" := VInt (Z.of_nat i);
     "html_url" := VStr ("https://github.com/octocat/repo-" ++ pretty i)%string ]}.

Definition page_of (i n : nat) : list (gmap string value) :=
  repo_json <$> seq i n.

Definition ok_page (items : list (gmap string value)) : Reply :=
  ok_json (VList (VDict <$> items)).

(** Three pages of 100, 100 and 37 repositories. *)
Definition three_pages : list (list (gmap string value)) :=
  [page_of 0 100; page_of 100 100; page_of 200 37].

(** An engine that gives each call the next of a prepared list of
    outcomes. *)
Definition scripted_engine (c : GitHubWorkflow.Call)
    (outcomes : list (result value)) : result value * list (result value) :=
  match outcomes with
  | [] => (Raise (TransportError "no outcome left"), [])
  | r :: outcomes => (r, outcomes)
  end.

(** The SDK's defaults as a deployment might have them: two hours to
    finish a step, five minutes between heartbeats. *)
Definition sdk_defaults : GitHubWorkflow.WorkflowInterface :=
  {| GitHubWorkflow.default_start_to_close_timeout := 7200;
     GitHubWorkflow.default_heartbeat_timeout := 300 |}.

Definition octocat_profile : gmap string value :=
  {[ "login" := VStr "octocat"; "followers" := VInt 10;
     "following" := VInt 3; "public_gists" := VInt 2;
     "public_repos" := VInt 8 ]}.

(** An upstream whose every page has one repository. *)
Definition endless (srv : unit) (rq : Request) : Reply * unit :=
  (ok_page (page_of 0 1), tt).

(** A process without a username in its environment. *)
Definition nameless_world (script : list Reply) : World (list Reply) :=
  {| env := {[ "GITHUB_PAT" := "ghp_token" ]};
     upstream := script;
     sent := [];
     files := ∅ |}.

(** Two short pages, and a page with an item that is not an object. *)
Definition short_pages : list (list (gmap string value)) :=
  [page_of 0 2; page_of 2 1].


(** A process without a token in its environment. *)
Definition tokenless_world (script : list Reply) : World (list Reply) :=
  {| env := {[ "GITHUB_USERNAME" := "octocat" ]};
     upstream := script;
     sent := [];
     files := ∅ |}.

Definition octocat_world (script : list Reply) : World (list Reply) :=
  {| env := {[ "GITHUB_USERNAME" := "octocat"; "GITHUB_PAT" := "ghp_token" ]};
     upstream := script;
     sent := [];
     files := ∅ |}.


(** Membership in a list that is written out. *)
Ltac in_list := repeat constructor.

(** Two sets of keys that are written out are the same. *)
Ltac same_keys :=
  apply set_eq; intros ?;
  rewrite !elem_of_union, !elem_of_singleton, elem_of_empty; tauto.

(** ** Normalization of a user profile *)

Section NormalizeUser.
Implicit Types (m out : gmap string value) (k key src : string).

Lemma get_or_dict m k default alt :
  get_or (VDict m) k default alt
  = Ok (py_or (match m !! k with Some v => v | None => default end) alt).
Proof. reflexivity. Qed.

Lemma py_or_falsy a b : truthy a = false -> py_or a b = b.
Proof. unfold py_or. by intros ->. Qed.

Lemma py_or_truthy a b : truthy a = true -> py_or a b = a.
Proof. unfold py_or. by intros ->. Qed.

Lemma or_else_Ok a b : or_else a (Ok b) = Ok (py_or a b).
Proof. unfold or_else, py_or. by destruct (truthy a). Qed.

Lemma omitted_or_null_falsy m k :
  omitted_or_null m k = true -> omitted_or_falsy m k = true.
Proof.
  unfold omitted_or_null, omitted_or_falsy, field.
  destruct (m !! k) as [[]|]; done.
Qed.

(** On a mapping the normalizer returns a mapping, and each of its
    fields is the upstream value or, when that is falsy, the default. *)
Lemma normalize_user_fields m :
  exists out,
    GitHubClient._normalize_user_json (VDict m) = Ok (VDict out)
    /\ out !! "name"
       = Some (py_or (field m "name") (py_or (field m "login") (VStr "N/A")))
    /\ (forall key src, (key, src) ∈ string_fields ->
          out !! key = Some (py_or (field m src) (VStr "N/A")))
    /\ out !! "bio" = Some (py_or (field m "bio") (VStr "No bio provided."))
    /\ (forall key, key ∈ integer_fields ->
          out !! key
          = Some (py_or (match m !! key with Some v => v | None => VInt 0 end)
                        (VInt 0))).
Proof.
  eexists. split; [|split; [|split; [|split]]].
  - unfold GitHubClient._normalize_user_json.
    rewrite !get_or_dict. cbn [mbind result_bind py_get].
    rewrite or_else_Ok.
    unfold dict_literal. cbn [foldl fst snd]. reflexivity.
  - simplify_map_eq. reflexivity.
  - intros key src Hin. unfold string_fields in Hin.
    repeat (apply elem_of_cons in Hin as [[= -> ->]|Hin]);
      [simplify_map_eq; reflexivity ..|].
    by apply elem_of_nil in Hin.
  - simplify_map_eq. reflexivity.
  - intros key Hin. unfold integer_fields in Hin.
    repeat (apply elem_of_cons in Hin as [->|Hin]);
      [simplify_map_eq; reflexivity ..|].
    by apply elem_of_nil in Hin.
Qed.

End NormalizeUser.

(** C3, as amended.  On every mapping the normalizer returns a profile
    and never raises.  A plain string field whose upstream key is
    omitted or null is "N/A", the bio is then "No bio provided.", an
    integer field is then 0.  With the name omitted or null, the output
    name is decided by the login: "N/A" if the login is omitted, null
    or any other falsy value, and the login's value if that is
    truthy. *)
Theorem normalize_user_total_with_sentinels (m : gmap string value) :
  exists out,
    GitHubClient._normalize_user_json (VDict m) = Ok (VDict out)
    /\ (forall key src, (key, src) ∈ string_fields ->
          omitted_or_null m src = true -> out !! key = Some (VStr "N/A"))
    /\ (omitted_or_null m "bio" = true ->
          out !! "bio" = Some (VStr "No bio provided."))
    /\ (forall key, key ∈ integer_fields ->
          omitted_or_null m key = true -> out !! key = Some (VInt 0))
    /\ (omitted_or_null m "name" = true -> omitted_or_falsy m "login" = true ->
          out !! "name" = Some (VStr "N/A"))
    /\ (omitted_or_null m "name" = true -> omitted_or_falsy m "login" = false ->
          out !! "name" = Some (field m "login")).
Proof.
  destruct (normalize_user_fields m) as (out & Hout & Hname & Hstr & Hbio & Hint).
  exists out. split; [exact Hout|].
  split; [|split; [|split; [|split]]].
  - intros key src Hin Hnull. rewrite (Hstr key src Hin).
    apply omitted_or_null_falsy, negb_true_iff in Hnull.
    by rewrite py_or_falsy.
  - intros Hnull. rewrite Hbio.
    apply omitted_or_null_falsy, negb_true_iff in Hnull.
    by rewrite py_or_falsy.
  - intros key Hin Hnull. rewrite (Hint key Hin).
    unfold omitted_or_null in Hnull.
    destruct (m !! key) as [[]|]; done.
  - intros Hname_null Hlogin_falsy. rewrite Hname.
    apply omitted_or_null_falsy, negb_true_iff in Hname_null.
    apply negb_true_iff in Hlogin_falsy.
    by rewrite !py_or_falsy.
  - intros Hname_null Hlogin. rewrite Hname.
    apply omitted_or_null_falsy, negb_true_iff in Hname_null.
    apply negb_false_iff in Hlogin.
    by rewrite py_or_falsy, py_or_truthy.
Qed.

(** C3 as it was stated fails on the name: with the name omitted and a
    login given, the output name is the login, not "N/A". *)
Lemma normalize_user_name_is_not_sentinel :
  let m : gmap string value := {[ "login" := VStr "octocat" ]} in
  omitted_or_null m "name" = true
  /\ ~ (exists out,
         GitHubClient._normalize_user_json (VDict m) = Ok (VDict out)
         /\ out !! "name" = Some (VStr "N/A")).
Proof.
  intros m. split; [reflexivity|].
  intros (out & Hout & Hname).
  destruct (normalize_user_fields m) as (out' & Hout' & Hname' & _).
  rewrite Hout' in Hout. injection Hout as <-.
  rewrite Hname' in Hname. discriminate Hname.
Qed.

Lemma normalize_user_total_with_sentinels_witness :
  let m : gmap string value :=
    {[ "login" := VStr "octocat"; "company" := VNone; "followers" := VNone ]} in
  exists out,
    GitHubClient._normalize_user_json (VDict m) = Ok (VDict out)
    /\ out !! "company" = Some (VStr "N/A")
    /\ out !! "profile_url" = Some (VStr "N/A")
    /\ out !! "bio" = Some (VStr "No bio provided.")
    /\ out !! "followers" = Some (VInt 0)
    /\ out !! "public_gists" = Some (VInt 0)
    /\ out !! "name" = Some (VStr "octocat").
Proof.
  intros m.
  destruct (normalize_user_total_with_sentinels m)
    as (out & Hout & Hstr & Hbio & Hint & _ & Hlogin).
  exists out. split; [exact Hout|].
  split; [apply (Hstr "company" "company"); [in_list|reflexivity]|].
  split; [apply (Hstr "profile_url" "html_url"); [in_list|reflexivity]|].
  split; [apply Hbio; reflexivity|].
  split; [apply (Hint "followers"); [in_list|reflexivity]|].
  split; [apply (Hint "public_gists"); [in_list|reflexivity]|].
  apply Hlogin; reflexivity.
Defined.

(** C9, as amended.  Every falsy upstream value is replaced like a
    missing one: a plain string field becomes "N/A", the bio becomes
    "No bio provided.", an integer field becomes 0.  A falsy or missing
    name with a truthy login gives the login's value as the name, which
    is "N/A" only when the login itself is that string. *)
Theorem normalize_user_falsy_and_login_fallback (m : gmap string value) :
  exists out,
    GitHubClient._normalize_user_json (VDict m) = Ok (VDict out)
    /\ (forall key src, (key, src) ∈ string_fields ->
          omitted_or_falsy m src = true -> out !! key = Some (VStr "N/A"))
    /\ (omitted_or_falsy m "bio" = true ->
          out !! "bio" = Some (VStr "No bio provided."))
    /\ (forall key, key ∈ integer_fields ->
          omitted_or_falsy m key = true -> out !! key = Some (VInt 0))
    /\ (omitted_or_falsy m "name" = true -> truthy (field m "login") = true ->
          out !! "name" = Some (field m "login")
          /\ (out !! "name" = Some (VStr "N/A") <-> field m "login" = VStr "N/A"))
    /\ (omitted_or_falsy m "name" = true -> omitted_or_falsy m "login" = true ->
          out !! "name" = Some (VStr "N/A")).
Proof.
  destruct (normalize_user_fields m) as (out & Hout & Hname & Hstr & Hbio & Hint).
  exists out. split; [exact Hout|].
  split; [|split; [|split; [|split]]].
  - intros key src Hin Hfalsy. rewrite (Hstr key src Hin).
    apply negb_true_iff in Hfalsy. by rewrite py_or_falsy.
  - intros Hfalsy. rewrite Hbio.
    apply negb_true_iff in Hfalsy. by rewrite py_or_falsy.
  - intros key Hin Hfalsy. rewrite (Hint key Hin).
    apply negb_true_iff in Hfalsy. unfold field in Hfalsy.
    destruct (m !! key); [by rewrite py_or_falsy|reflexivity].
  - intros Hfalsy Hlogin. apply negb_true_iff in Hfalsy.
    rewrite Hname, py_or_falsy, py_or_truthy by done.
    split; [reflexivity|]. split; congruence.
  - intros Hname_falsy Hlogin_falsy. rewrite Hname.
    apply negb_true_iff in Hname_falsy, Hlogin_falsy.
    by rewrite !py_or_falsy.
Qed.

(** C9 as it was stated fails when the login is the string "N/A": the
    profile has no name and has a login, and the name comes out as
    "N/A". *)
Lemma normalize_user_login_can_be_sentinel :
  let m : gmap string value := {[ "login" := VStr "N/A" ]} in
  omitted_or_falsy m "name" = true
  /\ truthy (field m "login") = true
  /\ exists out,
       GitHubClient._normalize_user_json (VDict m) = Ok (VDict out)
       /\ out !! "name" = Some (VStr "N/A").
Proof.
  intros m. split; [reflexivity|]. split; [reflexivity|].
  destruct (normalize_user_fields m) as (out & Hout & Hname & _).
  exists out. split; [exact Hout|]. rewrite Hname. reflexivity.
Qed.

Lemma normalize_user_falsy_and_login_fallback_witness :
  let m : gmap string value :=
    {[ "login" := VStr "octocat"; "name" := VStr ""; "company" := VStr "";
       "bio" := VStr ""; "followers" := VNone; "following" := VBool false ]} in
  exists out,
    GitHubClient._normalize_user_json (VDict m) = Ok (VDict out)
    /\ out !! "company" = Some (VStr "N/A")
    /\ out !! "bio" = Some (VStr "No bio provided.")
    /\ out !! "followers" = Some (VInt 0)
    /\ out !! "following" = Some (VInt 0)
    /\ out !! "name" = Some (VStr "octocat")
    /\ out !! "name" <> Some (VStr "N/A").
Proof.
  intros m.
  destruct (normalize_user_falsy_and_login_fallback m)
    as (out & Hout & Hstr & Hbio & Hint & Hlogin & _).
  exists out. split; [exact Hout|].
  split; [apply (Hstr "company" "company"); [in_list|reflexivity]|].
  split; [apply Hbio; reflexivity|].
  split; [apply (Hint "followers"); [in_list|reflexivity]|].
  split; [apply (Hint "following"); [in_list|reflexivity]|].
  destruct Hlogin as [Heq Hiff]; [reflexivity..|].
  split; [exact Heq|]. intros Hna. apply Hiff in Hna. discriminate Hna.
Defined.

(** ** Pagination *)

Section Pagination.
Context {Srv : Type} (serve : Srv -> Request -> Reply * Srv).
Implicit Types (w : World Srv) (pages : list (list (gmap string value))).

Lemma normalized_repo_dict (repo : gmap string value) :
  GitHubClient.normalized_repo (VDict repo) = Ok (normalized_record repo).
Proof. reflexivity. Qed.

Lemma comprehension_dicts (items : list (gmap string value)) :
  comprehension GitHubClient.normalized_repo (VDict <$> items)
  = Ok (normalized_record <$> items).
Proof.
  induction items as [|repo items IH]; [reflexivity|].
  cbn [fmap list_fmap comprehension]. rewrite normalized_repo_dict.
  cbn [mbind result_bind]. fold (fmap (M:=list) VDict items).
  rewrite IH. reflexivity.
Qed.

Lemma truthy_page (items : list (gmap string value)) :
  items <> [] -> truthy (VList (VDict <$> items)) = true.
Proof. by destruct items. Qed.




Lemma after_requests_nil w : after_requests w [] (upstream w) = w.
Proof. destruct w. unfold after_requests. cbn. by rewrite app_nil_r. Qed.

Lemma after_requests_app w rqs1 rqs2 (srv1 srv2 : Srv) :
  after_requests (after_requests w rqs1 srv1) rqs2 srv2
  = after_requests w (rqs1 ++ rqs2) srv2.
Proof. unfold after_requests. cbn. by rewrite app_assoc. Qed.

(** One turn of the loop on a page that has items. *)
Lemma fetch_pages_step fuel client username page_num all_repos w
    (items : list (gmap string value)) reply srv :
  serve (upstream w) (repos_request client username page_num) = (reply, srv) ->
  serves_page items reply ->
  items <> [] ->
  GitHubClient.fetch_pages serve (S fuel) client username page_num all_repos w
  = GitHubClient.fetch_pages serve fuel client username (page_num + 1)
      (all_repos ++ (normalized_record <$> items))
      (after_requests w [repos_request client username page_num] srv).
Proof.
  intros Hserve (response & -> & Hstatus & Hbody) Hitems.
  cbn [GitHubClient.fetch_pages].
  unfold http_get, GitHubClient.per_page. unfold repos_request in Hserve.
  rewrite Hserve.
  cbn [mbind result_bind]. rewrite Hstatus. cbn [mbind result_bind].
  unfold response_json. rewrite Hbody.
  rewrite truthy_page by done. cbn [negb py_iter mbind result_bind].
  rewrite comprehension_dicts. reflexivity.
Qed.

(** The loop walks through any number of pages that have items. *)
Lemma fetch_pages_through pages :
  forall fuel client username page_num all_repos w replies srv,
    serve_all serve (upstream w)
      (page_requests client username page_num (length pages)) = (replies, srv) ->
    Forall2 serves_page pages replies ->
    Forall (fun items => items <> []) pages ->
    GitHubClient.fetch_pages serve (length pages + fuel) client username
      page_num all_repos w
    = GitHubClient.fetch_pages serve fuel client username
        (page_num + Z.of_nat (length pages))
        (all_repos ++ records_of pages)
        (after_requests w
           (page_requests client username page_num (length pages)) srv).
Proof.
  induction pages as [|items pages IH];
    intros fuel client username page_num all_repos w replies srv Hserve Hpages Hne.
  - cbn in Hserve. injection Hserve as <- <-.
    cbn [length page_requests Nat.add]. unfold records_of. cbn [map concat].
    by rewrite after_requests_nil, app_nil_r, Z.add_0_r.
  - cbn [length page_requests serve_all] in Hserve.
    destruct (serve (upstream w) (repos_request client username page_num))
      as [reply srv0] eqn:Hfirst.
    destruct (serve_all serve srv0
                (page_requests client username (page_num + 1) (length pages)))
      as [replies' srv'] eqn:Hrest.
    injection Hserve as <- <-.
    apply Forall2_cons in Hpages as [Hitems Hpages].
    apply Forall_cons in Hne as [Hne_items Hne].
    cbn [length Nat.add].
    rewrite (fetch_pages_step _ _ _ _ _ _ items reply srv0) by done.
    rewrite (IH fuel client username (page_num + 1) _ _ replies' srv')
      by done.
    rewrite after_requests_app. unfold records_of.
    cbn [page_requests app concat map].
    rewrite <- app_assoc.
    by replace (page_num + Z.of_nat (S (length pages)))
      with (page_num + 1 + Z.of_nat (length pages)) by lia.
Qed.





(** Until the page without items has been asked for, the loop is
    still running. *)
Lemma fetch_pages_running pages client username page_num all_repos w replies
    srv :
  serve_all serve (upstream w)
    (page_requests client username page_num (length pages)) = (replies, srv) ->
  Forall2 serves_page pages replies ->
  Forall (fun items => items <> []) pages ->
  (GitHubClient.fetch_pages serve (length pages) client username page_num
     all_repos w).1 = None.
Proof.
  intros Hserve Hpages Hne.
  rewrite <- (Nat.add_0_r (length pages)) at 1.
  by rewrite (fetch_pages_through pages _ _ _ _ _ _ replies srv).
Qed.



End Pagination.

Lemma serves_ok_page (items : list (gmap string value)) :
  serves_page items (ok_page items).
Proof. eexists. by split; [|split]. Qed.


(** The same run, evaluated: the last record returned is repository
    236 and the fourth request asked for page 4. *)
Example fetch_three_pages_run :
  let w := octocat_world (map ok_page (three_pages ++ [[]])) in
  let fetched :=
    GitHubClient.fetch_all_repository_data scripted 10
      (GitHubClient.__init__ (VStr "ghp_token")) (VStr "octocat") w in
  (match fetched.1.1 with
   | Some (Ok records) => (length records, last records)
   | _ => (O, None)
   end) = (237%nat, Some (normalized_record (repo_json 236)))
  /\ last (sent fetched.2)
     = Some {| req_client := session (VStr "ghp_token");
               req_url := [FLit "/users/"; FVal (VStr "octocat"); FLit "/repos"];
               req_params := [("page", 4); ("per_page", 100)] |}
  /\ upstream fetched.2 = [].
Proof. vm_compute. repeat split. Qed.

(** With too little fuel the loop is still running: it does not stop
    before the page without items. *)
Example fetch_three_pages_out_of_fuel :
  (GitHubClient.fetch_all_repository_data scripted 3
     (GitHubClient.__init__ (VStr "ghp_token")) (VStr "octocat")
     (octocat_world (map ok_page (three_pages ++ [[]])))).1.1 = None.
Proof. vm_compute. reflexivity. Qed.


(** ** Credentials *)

Lemma falsy_dict_empty (m : gmap string value) :
  truthy (VDict m) = false -> m = ∅.
Proof.
  cbn. intros H%negb_false_iff%Nat.eqb_eq. by apply map_size_empty_iff.
Qed.

(** A configuration mapping resolves to its own entry where that is
    truthy and to the environment variable otherwise. *)
Lemma resolve_credentials_dict (config : gmap string value)
    (environ : gmap string string) :
  _resolve_credentials (VDict config) environ
  = Ok (if truthy (field config "username") then field config "username"
        else getenv environ "GITHUB_USERNAME",
        if truthy (field config "pat") then field config "pat"
        else getenv environ "GITHUB_PAT").
Proof.
  unfold _resolve_credentials.
  destruct (truthy (VDict config)) eqn:Hconfig.
  - rewrite py_or_truthy by done. cbn [py_get mbind result_bind].
    fold (field config "username"). fold (field config "pat").
    by do 2 destruct (truthy (field config _)).
  - apply falsy_dict_empty in Hconfig as ->. reflexivity.
Qed.

(** C6 as it was stated fails on a value that is present and falsy:
    the configuration [{"username": ""}] has a username, and the one
    resolved is GITHUB_USERNAME. *)
Lemma resolve_credentials_empty_username_gives_way :
  let config : gmap string value := {[ "username" := VStr "" ]} in
  let environ : gmap string string := {[ "GITHUB_USERNAME" := "b" ]} in
  config !! "username" = Some (VStr "")
  /\ _resolve_credentials (VDict config) environ = Ok (VStr "b", VNone).
Proof.
  intros config environ. split; [reflexivity|].
  subst config environ. by rewrite resolve_credentials_dict.
Qed.

(** C6, as amended.  A truthy username (token) in the configuration is
    the one resolved, whatever the environment holds; one that is left
    out or falsy (null, empty) gives way to GITHUB_USERNAME
    (GITHUB_PAT), and so does a configuration that is None.  The
    environment is read at the call: a variable set just before it is
    the one resolved. *)
Theorem resolve_credentials_precedence (config : gmap string value)
    (environ : gmap string string) :
  exists username pat,
    _resolve_credentials (VDict config) environ = Ok (username, pat)
    /\ (omitted_or_falsy config "username" = false ->
          username = field config "username")
    /\ (omitted_or_falsy config "pat" = false -> pat = field config "pat")
    /\ (omitted_or_falsy config "username" = true ->
          username = getenv environ "GITHUB_USERNAME")
    /\ (omitted_or_falsy config "pat" = true ->
          pat = getenv environ "GITHUB_PAT")
    /\ _resolve_credentials VNone environ
       = Ok (getenv environ "GITHUB_USERNAME", getenv environ "GITHUB_PAT")
    /\ (forall name token : string,
          omitted_or_falsy config "username" = true ->
          omitted_or_falsy config "pat" = true ->
          _resolve_credentials (VDict config)
            (<["GITHUB_PAT" := token]> (<["GITHUB_USERNAME" := name]> environ))
          = Ok (VStr name, VStr token)).
Proof.
  eexists _, _. split; [apply resolve_credentials_dict|].
  unfold omitted_or_falsy.
  repeat split.
  - intros H%negb_false_iff. by rewrite H.
  - intros H%negb_false_iff. by rewrite H.
  - intros H%negb_true_iff. by rewrite H.
  - intros H%negb_true_iff. by rewrite H.
  - intros name token Hu%negb_true_iff Hp%negb_true_iff.
    rewrite resolve_credentials_dict, Hu, Hp. unfold getenv.
    by simplify_map_eq.
Qed.

Lemma resolve_credentials_precedence_witness :
  let environ : gmap string string :=
    {[ "GITHUB_USERNAME" := "b"; "GITHUB_PAT" := "env-token" ]} in
  _resolve_credentials (VDict {[ "username" := VStr "a" ]}) environ
  = Ok (VStr "a", VStr "env-token")
  /\ _resolve_credentials (VDict ∅) environ = Ok (VStr "b", VStr "env-token")
  /\ _resolve_credentials (VDict {[ "username" := VStr "" ]})
       (<["GITHUB_PAT" := "later-token"]> (<["GITHUB_USERNAME" := "c"]> environ))
     = Ok (VStr "c", VStr "later-token").
Proof.
  intros environ. split; [|split].
  - destruct (resolve_credentials_precedence {[ "username" := VStr "a" ]} environ)
      as (username & pat & -> & Hu & _ & _ & Hp & _).
    by rewrite Hu, Hp.
  - destruct (resolve_credentials_precedence ∅ environ)
      as (username & pat & -> & _ & _ & Hu & Hp & _).
    by rewrite Hu, Hp.
  - destruct (resolve_credentials_precedence {[ "username" := VStr "" ]} environ)
      as (_ & _ & _ & _ & _ & _ & _ & _ & Hfresh).
    by apply Hfresh.
Defined.

(** ** Activities *)

Section ActivitiesSpec.
Context {Srv : Type} (serve : Srv -> Request -> Reply * Srv).
Implicit Types (w : World Srv).

(** A profile fetch is one request; its result is read off the reply. *)
Lemma fetch_user_profile_data_once pat username w :
  let rq := profile_request (session pat) username in
  GitHubClient.fetch_user_profile_data serve (GitHubClient.__init__ pat)
    username w
  = (profile_outcome (serve (upstream w) rq).1,
     (GitHubClient._get_client (GitHubClient.__init__ pat)).2,
     after_requests w [rq] (serve (upstream w) rq).2).
Proof.
  intros rq. unfold GitHubClient.fetch_user_profile_data, http_get.
  subst rq. unfold session, profile_request.
  destruct (GitHubClient._get_client (GitHubClient.__init__ pat))
    as [client self]. cbn [fst snd].
  destruct (serve (upstream w) _) as [[msg|response] srv]; reflexivity.
Qed.


Lemma py_or_int_zero (z : Z) : py_or (VInt z) (VInt 0) = VInt z.
Proof. unfold py_or. cbn. by destruct (Z.eqb_spec z 0) as [->|]. Qed.

(** C4.  The summary is a function of the bundle alone: the
    repository count is the length of the list passed in, whatever the
    records are and whatever the profile says of its public_repos, and
    the other three totals are the profile's followers, following and
    public_gists.  The world only receives the output file. *)
Theorem summary_stats_of_bundle (raw profile : gmap string value)
    (repos : list value) (followers following public_gists : Z) w :
  raw !! "user_data" = Some (VDict profile) ->
  raw !! "repo_data" = Some (VList repos) ->
  profile !! "followers" = Some (VInt followers) ->
  profile !! "following" = Some (VInt following) ->
  profile !! "public_gists" = Some (VInt public_gists) ->
  let stats :=
    summary_of (Z.of_nat (length repos))
      (VInt followers) (VInt following) (VInt public_gists) in
  GitHubActivities.compute_summary_stats_activity (VDict raw) w
  = (Ok stats, dump_file "github_summary_stats.json" stats w).
Proof.
  intros Huser Hrepos Hfollowers Hfollowing Hgists stats.
  unfold GitHubActivities.compute_summary_stats_activity.
  cbn [py_get]. rewrite Huser, Hrepos. cbn [mbind result_bind py_len].
  rewrite !get_or_dict, Hfollowers, Hfollowing, Hgists, !py_or_int_zero.
  reflexivity.
Qed.

(** C10, as amended.  On every input mapping whose user_data, when
    present, is a mapping and whose repo_data, when present, has a
    length, the aggregation returns a summary and does not raise.
    Without user_data the three profile totals are 0; without
    repo_data the repository total is 0. *)
Theorem summary_stats_of_partial_bundle (raw : gmap string value) w :
  absent_or_mapping (raw !! "user_data") = true ->
  absent_or_sized (raw !! "repo_data") = true ->
  exists repo_count followers following public_gists,
    let stats := summary_of repo_count followers following public_gists in
    GitHubActivities.compute_summary_stats_activity (VDict raw) w
    = (Ok stats, dump_file "github_summary_stats.json" stats w)
    /\ (raw !! "user_data" = None ->
          followers = VInt 0 /\ following = VInt 0 /\ public_gists = VInt 0)
    /\ (raw !! "repo_data" = None -> repo_count = 0).
Proof.
  intros Huser Hrepos.
  unfold GitHubActivities.compute_summary_stats_activity. cbn [py_get].
  destruct (raw !! "user_data") as [[| | | | | |profile]|] eqn:Hu;
    try discriminate Huser; cbn [mbind result_bind];
    (destruct (raw !! "repo_data") as [repo_data|] eqn:Hr;
     [cbn in Hrepos; destruct (py_len repo_data) as [n|] eqn:Hlen;
      [|discriminate Hrepos]|]);
    cbn [mbind result_bind py_len]; rewrite !get_or_dict;
    cbn [mbind result_bind];
    eexists _, _, _, _; (split; [reflexivity|]);
    split; try discriminate; try done.
Qed.

(** The summary does not depend on the world it is computed in. *)
Lemma summary_stats_pure (raw_data : value) w (w' : World Srv) :
  (GitHubActivities.compute_summary_stats_activity raw_data w).1
  = (GitHubActivities.compute_summary_stats_activity raw_data w').1.
Proof.
  unfold GitHubActivities.compute_summary_stats_activity.
  by destruct (_ ≫= _).
Qed.


End ActivitiesSpec.


(** The spec's example: followers 10, following 3, public_gists 2 and
    three repositories of any content give totals 3, 10, 3, 2, also
    when the profile reports another number of public repositories. *)
Lemma summary_stats_of_bundle_witness :
  let raw : gmap string value :=
    {[ "user_data" := VDict octocat_profile;
       "repo_data" := VList [VDict (repo_json 1); VDict ∅; VNone] ]} in
  (GitHubActivities.compute_summary_stats_activity (VDict raw)
     (octocat_world [])).1
  = Ok (summary_of 3 (VInt 10) (VInt 3) (VInt 2)).
Proof.
  intros raw.
  rewrite (summary_stats_of_bundle raw octocat_profile
             [VDict (repo_json 1); VDict ∅; VNone] 10 3 2);
    reflexivity.
Defined.

(** C10 as it was stated fails on a bundle whose user_data is null:
    the key is not missing, so the default does not apply, and
    [None.get] raises. *)
Lemma summary_stats_null_user_data_raises :
  GitHubActivities.compute_summary_stats_activity
    (VDict {[ "user_data" := VNone ]}) (octocat_world [])
  = (Raise (AttributeError "NoneType" "get"), octocat_world []).
Proof. reflexivity. Qed.

Lemma summary_stats_of_partial_bundle_witness :
  (GitHubActivities.compute_summary_stats_activity (VDict ∅)
     (octocat_world [])).1
  = Ok (summary_of 0 (VInt 0) (VInt 0) (VInt 0))
  /\ exists followers following public_gists,
       (GitHubActivities.compute_summary_stats_activity
          (VDict {[ "user_data" := VDict octocat_profile ]})
          (octocat_world [])).1
       = Ok (summary_of 0 followers following public_gists).
Proof.
  split.
  - destruct (summary_stats_of_partial_bundle ∅ (octocat_world []))
      as (repo_count & followers & following & public_gists
          & -> & Huser & Hrepos); [reflexivity..|].
    destruct (Huser eq_refl) as (-> & -> & ->). by rewrite (Hrepos eq_refl).
  - destruct (summary_stats_of_partial_bundle
                {[ "user_data" := VDict octocat_profile ]} (octocat_world []))
      as (repo_count & followers & following & public_gists
          & -> & _ & Hrepos); [reflexivity..|].
    rewrite (Hrepos eq_refl). by exists followers, following, public_gists.
Defined.

(** ** Workflow *)

Section WorkflowSpec.
Import GitHubWorkflow.
Context {Engine : Type}
  (execute_activity_method : Call -> Engine -> result value * Engine)
  (first_raised_first : Engine -> bool).
Implicit Types (self : WorkflowInterface) (g : Engine).

(** The shape of every run: Preflight alone when it fails; Preflight
    and the two fetches when one of them fails; all four activities
    when both fetches succeeded, the last one on their two results. *)
Lemma run_shapes self workflow_config g :
  let out := run execute_activity_method first_raised_first self
               workflow_config g in
  (exists c0 e, out.2 = [(c0, Raise e)] /\ out.1.1 = Raise e
                /\ activity c0 = preflight_check)
  \/ (exists c0 v0 c1 r1 c2 r2 e,
        out.2 = [(c0, Ok v0); (c1, r1); (c2, r2)] /\ out.1.1 = Raise e
        /\ (is_Ok r1 && is_Ok r2 = false)
        /\ activity c0 = preflight_check
        /\ activity c1 = retrieve_user_profile_activity
        /\ activity c2 = retrieve_repositories_activity)
  \/ (exists c0 v0 c1 user_data c2 repo_data c3 r3,
        out.2 = [(c0, Ok v0); (c1, Ok user_data); (c2, Ok repo_data); (c3, r3)]
        /\ is_Ok out.1.1 = is_Ok r3
        /\ activity c0 = preflight_check
        /\ activity c1 = retrieve_user_profile_activity
        /\ activity c2 = retrieve_repositories_activity
        /\ activity c3 = compute_summary_stats_activity
        /\ arg c3 = dict_literal [("user_data", user_data);
                                  ("repo_data", repo_data)]).
Proof.
  unfold run.
  destruct (execute_activity_method _ g) as [[v0|e0] g0]; cbn zeta.
  2: { left. by eexists _, _. }
  destruct (execute_activity_method _ g0) as [r1 g1].
  destruct (execute_activity_method _ g1) as [r2 g2].
  destruct r1 as [user_data|e1], r2 as [repo_data|e2]; cbn [gather].
  2-4: right; left; by eexists _, _, _, _, _, _, _.
  right; right.
  destruct (execute_activity_method _ g2) as [[summary_stats|e3] g3];
    by eexists _, _, _, _, _, _, _, _.
Qed.

(** C7.  In every run the aggregation is handed to the engine only
    after both fetches came back successfully, as the last call and on
    their two results.  When the repository fetch fails, also after
    the profile fetch succeeded, or when the profile fetch fails, the
    aggregation is not invoked and the run fails. *)
Theorem run_aggregates_only_after_both_fetches self workflow_config g :
  let out := run execute_activity_method first_raised_first self
               workflow_config g in
  let trace := out.2 in
  (invoked compute_summary_stats_activity trace = true ->
     exists before c3 r3 user_data repo_data,
       trace = before ++ [(c3, r3)]
       /\ activity c3 = compute_summary_stats_activity
       /\ invoked compute_summary_stats_activity before = false
       /\ (exists c1, activity c1 = retrieve_user_profile_activity
                      /\ (c1, Ok user_data) ∈ before)
       /\ (exists c2, activity c2 = retrieve_repositories_activity
                      /\ (c2, Ok repo_data) ∈ before)
       /\ failed retrieve_user_profile_activity trace = false
       /\ failed retrieve_repositories_activity trace = false
       /\ arg c3 = dict_literal [("user_data", user_data);
                                 ("repo_data", repo_data)])
  /\ (failed retrieve_repositories_activity trace = true ->
        invoked compute_summary_stats_activity trace = false
        /\ is_Ok out.1.1 = false)
  /\ (failed retrieve_user_profile_activity trace = true ->
        invoked compute_summary_stats_activity trace = false
        /\ is_Ok out.1.1 = false).
Proof.
  intros out trace. subst trace.
  destruct (run_shapes self workflow_config g)
    as [(c0 & e & Htrace & Hout & H0)
       |[(c0 & v0 & c1 & r1 & c2 & r2 & e & Htrace & Hout & Hfail & H0 & H1 & H2)
        |(c0 & v0 & c1 & user_data & c2 & repo_data & c3 & r3
          & Htrace & Hout & H0 & H1 & H2 & H3 & Harg)]];
    fold out in Htrace, Hout; rewrite Htrace; clear Htrace.
  - unfold invoked, failed. cbn. rewrite H0, Hout. by cbn.
  - unfold invoked, failed. cbn. rewrite H0, H1, H2, Hout. cbn.
    split; [done|]. by split.
  - split; [|unfold invoked, failed; cbn; rewrite H0, H1, H2, H3; by cbn].
    intros _.
    exists [(c0, Ok v0); (c1, Ok user_data); (c2, Ok repo_data)],
      c3, r3, user_data, repo_data.
    split; [reflexivity|]. split; [exact H3|].
    split; [unfold invoked; cbn; rewrite H0, H1, H2; by cbn|].
    split; [exists c1; split; [exact H1|in_list]|].
    split; [exists c2; split; [exact H2|in_list]|].
    split; [unfold failed; cbn; rewrite H0, H1, H2, H3; by cbn|].
    split; [unfold failed; cbn; rewrite H0, H1, H2, H3; by cbn|].
    exact Harg.
Qed.

(** C8.  Every call the workflow hands to the engine carries the retry
    policy of at most 6 attempts with backoff coefficient 2.  The two
    fetches and the aggregation are given 60 seconds; Preflight is
    given the inherited default, which is longer. *)
Theorem run_declares_policy self workflow_config g :
  preflight_timeout_is_longer self ->
  let out := run execute_activity_method first_raised_first self
               workflow_config g in
  forall c r, (c, r) ∈ out.2 ->
    retry_policy c = {| maximum_attempts := 6; backoff_coefficient := 2 |}
    /\ (if decide (activity c = preflight_check)
        then start_to_close_timeout c = default_start_to_close_timeout self
             /\ 60 < start_to_close_timeout c
        else start_to_close_timeout c = 60).
Proof.
  intros Hlonger out c r. subst out. unfold run.
  destruct (execute_activity_method _ g) as [[v0|e0] g0]; cbn zeta.
  2: { intros [= -> _]%list_elem_of_singleton. by cbn. }
  destruct (execute_activity_method _ g0) as [r1 g1].
  destruct (execute_activity_method _ g1) as [r2 g2].
  destruct (gather _ r1 r2) as [[user_data repo_data]|e].
  1: destruct (execute_activity_method _ g2) as [[summary_stats|e3] g3].
  all: cbn [snd]; intros Hin;
    repeat (apply elem_of_cons in Hin as [[= -> _]|Hin]; [by cbn|]);
    by apply elem_of_nil in Hin.
Qed.

(** A run that succeeds returns None: the summary is computed and
    persisted by the activity, and [run] has no return statement. *)
Lemma run_returns_none self workflow_config g v :
  (run execute_activity_method first_raised_first self workflow_config g).1.1
  = Ok v ->
  v = VNone.
Proof.
  unfold run.
  destruct (execute_activity_method _ g) as [[v0|e0] g0]; cbn zeta;
    [|discriminate].
  destruct (execute_activity_method _ g0) as [r1 g1].
  destruct (execute_activity_method _ g1) as [r2 g2].
  destruct (gather _ r1 r2) as [[user_data repo_data]|e]; [|discriminate].
  destruct (execute_activity_method _ g2) as [[summary_stats|e3] g3];
    cbn; congruence.
Qed.

End WorkflowSpec.

(** A run in which the profile fetch succeeds and the repository fetch
    fails: the aggregation is never called and the run fails. *)
Lemma run_aggregates_only_after_both_fetches_witness :
  let out :=
    GitHubWorkflow.run scripted_engine (fun _ => true) sdk_defaults (VDict ∅)
      [Ok VNone; Ok (VDict octocat_profile); Raise (HTTPStatusError 500)] in
  GitHubWorkflow.succeeded GitHubWorkflow.retrieve_user_profile_activity out.2
  = true
  /\ GitHubWorkflow.invoked GitHubWorkflow.compute_summary_stats_activity out.2
     = false
  /\ is_Ok out.1.1 = false.
Proof.
  intros out. split; [reflexivity|].
  destruct (run_aggregates_only_after_both_fetches scripted_engine
              (fun _ => true) sdk_defaults (VDict ∅)
              [Ok VNone; Ok (VDict octocat_profile);
               Raise (HTTPStatusError 500)])
    as (_ & Hrepos & _).
  apply Hrepos. reflexivity.
Defined.

(** A complete run under the SDK's defaults: all four calls carry the
    6-attempt, coefficient-2 policy. *)
Lemma run_declares_policy_witness :
  let out :=
    GitHubWorkflow.run scripted_engine (fun _ => true) sdk_defaults (VDict ∅)
      [Ok VNone; Ok (VDict octocat_profile); Ok (VList []);
       Ok (summary_of 0 (VInt 10) (VInt 3) (VInt 2))] in
  GitHubWorkflow.preflight_timeout_is_longer sdk_defaults
  /\ length out.2 = 4%nat
  /\ Forall (fun ev : GitHubWorkflow.Event =>
               GitHubWorkflow.retry_policy ev.1
               = {| GitHubWorkflow.maximum_attempts := 6;
                    GitHubWorkflow.backoff_coefficient := 2 |}) out.2.
Proof.
  intros out.
  assert (GitHubWorkflow.preflight_timeout_is_longer sdk_defaults) as Hlonger.
  { unfold GitHubWorkflow.preflight_timeout_is_longer. cbn. lia. }
  split; [exact Hlonger|]. split; [reflexivity|].
  apply Forall_forall. intros [c r] Hin.
  apply (run_declares_policy scripted_engine (fun _ => true) sdk_defaults
           (VDict ∅) _ Hlonger c r Hin).
Defined.

(** ** The activities at work *)

(** The repository activity on a page of 100 followed by HTTP 500: it
    raises the error and leaves no repository file behind. *)
Example retrieve_repositories_activity_aborts :
  let done :=
    GitHubActivities.retrieve_repositories_activity scripted 10 VNone
      (octocat_world [ok_page (page_of 0 100); http_error 500]) in
  done.1 = Some (Raise (HTTPStatusError 500))
  /\ files done.2 !! "github_repositories.json" = None.
Proof. vm_compute. split; reflexivity. Qed.

(** The repository activity on two short pages: the file holds the
    list it returns. *)
Example retrieve_repositories_activity_persists :
  let done :=
    GitHubActivities.retrieve_repositories_activity scripted 10 VNone
      (octocat_world (map ok_page [page_of 0 2; page_of 2 1; []])) in
  done.1 = Some (Ok (VList (records_of [page_of 0 2; page_of 2 1])))
  /\ files done.2 !! "github_repositories.json"
     = Some (VList (records_of [page_of 0 2; page_of 2 1])).
Proof. vm_compute. split; reflexivity. Qed.

(** Two profile retrievals with the environment changed in between:
    the second one asks for the new user. *)
Example credentials_are_read_at_each_call :
  let w := octocat_world [ok_json (VDict octocat_profile);
                          ok_json (VDict octocat_profile)] in
  let w1 := (GitHubActivities.retrieve_user_profile_activity scripted VNone w).2 in
  let w1' := {| env := <["GITHUB_USERNAME" := "hubot"]> (env w1);
                upstream := upstream w1; sent := sent w1; files := files w1 |} in
  let w2 := (GitHubActivities.retrieve_user_profile_activity scripted VNone w1').2 in
  map req_url (sent w2)
  = [[FLit "/users/"; FVal (VStr "octocat")];
     [FLit "/users/"; FVal (VStr "hubot")]].
Proof. vm_compute. reflexivity. Qed.

(** The loop has no bound of its own: against an upstream that always
    has one more page it is still running after any number of pages. *)
Lemma fetch_pages_endless fuel client username page_num all_repos
    (w : World unit) :
  (GitHubClient.fetch_pages endless fuel client username page_num
     all_repos w).1 = None.
Proof.
  revert page_num all_repos w.
  induction fuel as [|fuel IH]; intros page_num all_repos w; [reflexivity|].
  rewrite (fetch_pages_step endless _ _ _ _ _ _ (page_of 0 1)
             (ok_page (page_of 0 1)) tt);
    [apply IH|reflexivity|apply serves_ok_page|discriminate].
Qed.

(** The normalizer expects a mapping: any other JSON value has no
    [get]. *)
Example normalize_user_json_not_a_mapping :
  GitHubClient._normalize_user_json (VList [])
  = Raise (AttributeError "list" "get").
Proof. reflexivity. Qed.

(** ** More on the client *)

Section ClientSpec.
Context {Srv : Type} (serve : Srv -> Request -> Reply * Srv).
Implicit Types (w : World Srv) (self : GitHubClient.t).

(** A profile fetch through any client, with or without a session. *)
Lemma fetch_user_profile_data_any self username w :
  let client := (GitHubClient._get_client self).1 in
  let rq := profile_request client username in
  GitHubClient.fetch_user_profile_data serve self username w
  = (profile_outcome (serve (upstream w) rq).1,
     (GitHubClient._get_client self).2,
     after_requests w [rq] (serve (upstream w) rq).2).
Proof.
  intros client rq. subst client rq.
  unfold GitHubClient.fetch_user_profile_data, http_get, profile_request.
  destruct (GitHubClient._get_client self) as [client self']. cbn [fst snd].
  destruct (serve (upstream w) _) as [[msg|response] srv]; reflexivity.
Qed.


(** X2.  Through a client that holds a session or can open one, a
    profile fetch is exactly one call of [client.get], however it
    ends, and its result is decided by that end alone: a call that
    raises gives that error; a status outside 2xx is an HTTP error
    even when the body is a profile; with a 2xx status, a body that
    [response.json()] cannot read gives that error, a value read that
    is not an object is an attribute error, and an object gives a
    profile. *)
Theorem fetch_user_profile_data_outcomes self username w :
  can_open_session self = true ->
  let client := (GitHubClient._get_client self).1 in
  let rq := profile_request client username in
  let reply := (serve (upstream w) rq).1 in
  let fetched := GitHubClient.fetch_user_profile_data serve self username w in
  fetched.2 = after_requests w [rq] (serve (upstream w) rq).2
  /\ match reply with
     | NoResponse msg => fetched.1.1 = Raise (TransportError msg)
     | Answer response =>
         if (200 <=? status_code response) && (status_code response <? 300)
         then match body response with
              | None => fetched.1.1 = Raise JSONDecodeError
              | Some (VDict m) => exists out, fetched.1.1 = Ok (VDict out)
              | Some v => fetched.1.1 = Raise (AttributeError (type_name v) "get")
              end
         else fetched.1.1 = Raise (HTTPStatusError (status_code response))
     end.
Proof.
  intros _ client rq reply fetched. subst fetched reply rq client.
  rewrite fetch_user_profile_data_any. cbn [fst snd]. split; [reflexivity|].
  destruct (serve (upstream w) _) as [[msg|response] srv]; cbn [fst];
    [reflexivity|].
  unfold profile_outcome, raise_for_status.
  destruct (_ && _); [|reflexivity]. cbn [mbind result_bind].
  unfold response_json.
  destruct (body response) as [[| | | | | |m]|]; try reflexivity.
  destruct (normalize_user_fields m) as (out & Hout & _). by exists out.
Qed.

End ClientSpec.

(** ** More on pagination *)

Section PaginationSpec.
Context {Srv : Type} (serve : Srv -> Request -> Reply * Srv).
Implicit Types (w : World Srv) (pages : list (list (gmap string value))).

Lemma fetch_pages_requests fuel :
  forall client username page_num all_repos w,
    exists k srv,
      (k <= fuel)%nat
      /\ (GitHubClient.fetch_pages serve fuel client username page_num
            all_repos w).2
         = after_requests w (page_requests client username page_num k) srv
      /\ ((GitHubClient.fetch_pages serve fuel client username page_num
             all_repos w).1 = None -> k = fuel).
Proof.
  induction fuel as [|fuel IH]; intros client username page_num all_repos w.
  - exists O, (upstream w). cbn. by rewrite after_requests_nil.
  - cbn [GitHubClient.fetch_pages].
    unfold http_get, GitHubClient.per_page.
    fold (repos_request client username page_num).
    destruct (serve (upstream w) (repos_request client username page_num))
      as [reply srv].
    assert (forall (r : result (list value)),
              exists k srv',
                (k <= S fuel)%nat
                /\ after_requests w [repos_request client username page_num] srv
                   = after_requests w
                       (page_requests client username page_num k) srv'
                /\ (Some r = None -> k = S fuel)) as Hend.
    { intros r. exists 1%nat, srv. repeat split; [lia|done]. }
    destruct reply as [msg|response]; cbn [mbind result_bind];
      [apply Hend|].
    destruct (raise_for_status response); cbn [mbind result_bind];
      [|apply Hend].
    destruct (response_json response) as [page_data|e]; [|apply Hend].
    destruct (negb (truthy page_data)); [apply Hend|].
    destruct (_ ≫= _) as [normalized_page_repos|e]; [|apply Hend].
    destruct (IH client username (page_num + 1)
                (all_repos ++ normalized_page_repos)
                (after_requests w [repos_request client username page_num] srv))
      as (k & srv' & Hk & Hworld & Hrunning).
    exists (S k), srv'. split; [lia|]. split.
    + unfold after_requests at 1 in Hworld. unfold after_requests at 1.
      rewrite Hworld, after_requests_app. reflexivity.
    + intros Hnone. f_equal. by apply Hrunning.
Qed.

(** X3.  Whatever the upstream answers and however the fetch ends
    (with a list, with an error, or still running when the fuel is
    spent), the requests it has sent are those for pages 1, 2, ..., k
    of the user's repositories, 100 per page, in that order and over
    one session, for some k within the fuel; the environment and the
    files are as before. *)
Theorem fetch_all_repository_data_requests fuel self username w :
  let fetched :=
    GitHubClient.fetch_all_repository_data serve fuel self username w in
  exists k,
    (k <= fuel)%nat
    /\ sent fetched.2
       = sent w
         ++ page_requests (GitHubClient._get_client self).1 username 1 k
    /\ env fetched.2 = env w
    /\ files fetched.2 = files w
    /\ (fetched.1.1 = None -> k = fuel).
Proof.
  intros fetched. subst fetched.
  unfold GitHubClient.fetch_all_repository_data.
  destruct (GitHubClient._get_client self) as [client self']. cbn [fst snd].
  destruct (fetch_pages_requests fuel client username 1 [] w)
    as (k & srv & Hk & Hworld & Hrunning).
  destruct (GitHubClient.fetch_pages serve fuel client username 1 [] w)
    as [r w'].
  cbn [fst snd] in *. subst w'. by exists k.
Qed.






End PaginationSpec.

(** ** More on normalization *)

Section NormalizeSpec.
Implicit Types (m out repo : gmap string value) (k key src : string).

Lemma normalize_user_is_normalized_profile m :
  GitHubClient._normalize_user_json (VDict m) = Ok (VDict (normalized_profile m)).
Proof.
  unfold GitHubClient._normalize_user_json.
  rewrite !get_or_dict. cbn [mbind result_bind py_get].
  by rewrite or_else_Ok.
Qed.

Lemma truthy_py_or a b : truthy b = true -> truthy (py_or a b) = true.
Proof. unfold py_or. by destruct (truthy a) eqn:Ha. Qed.

Lemma py_or_zero a :
  truthy (py_or a (VInt 0)) = true \/ py_or a (VInt 0) = VInt 0.
Proof. unfold py_or. destruct (truthy a) eqn:Ha; [by left|by right]. Qed.

Lemma py_or_again a b : py_or (py_or a b) b = py_or a b.
Proof.
  unfold py_or. destruct (truthy a) eqn:Ha; [by rewrite Ha|].
  by destruct (truthy b).
Qed.

Lemma normalized_profile_keys m :
  dom (normalized_profile m) = list_to_set UserMetadata_keys.
Proof.
  unfold normalized_profile. rewrite !dom_insert_L, dom_empty_L.
  unfold UserMetadata_keys. cbn [list_to_set foldr]. set_solver.
Qed.

Lemma truthy_name m :
  truthy (py_or (field m "name") (py_or (field m "login") (VStr "N/A"))) = true.
Proof. by do 2 apply truthy_py_or. Qed.

(** X7.  Whatever the upstream mapping holds, the profile has exactly
    the eighteen keys [UserMetadata] declares, every text field
    (name, bio and the plain string fields) holds a truthy value,
    never None and never an empty string, and every counter holds a
    truthy value or the integer 0. *)
Theorem normalize_user_output_shape m :
  exists out,
    GitHubClient._normalize_user_json (VDict m) = Ok (VDict out)
    /\ keys_of out = list_to_set UserMetadata_keys
    /\ (forall key, key ∈ text_keys ->
          exists v, out !! key = Some v /\ truthy v = true)
    /\ (forall key, key ∈ integer_fields ->
          exists v, out !! key = Some v /\ (truthy v = true \/ v = VInt 0)).
Proof.
  destruct (normalize_user_fields m) as (out & Hout & Hname & Hstr & Hbio & Hint).
  exists out. split; [exact Hout|]. split; [|split].
  - rewrite normalize_user_is_normalized_profile in Hout.
    injection Hout as <-. apply normalized_profile_keys.
  - intros key Hkey. unfold text_keys in Hkey.
    apply elem_of_cons in Hkey as [->|Hkey];
      [eexists; split; [exact Hname|apply truthy_name]|].
    apply elem_of_cons in Hkey as [->|Hkey];
      [eexists; split; [exact Hbio|by apply truthy_py_or]|].
    apply list_elem_of_fmap in Hkey as ([key' src] & -> & Hin).
    eexists. split; [exact (Hstr _ _ Hin)|by apply truthy_py_or].
  - intros key Hkey. eexists. split; [exact (Hint _ Hkey)|apply py_or_zero].
Qed.

(** X8.  The normalizer checks no types: a truthy upstream value is
    copied as it is, whatever it is, into a plain string field, the
    bio, a counter and the name. *)
Theorem normalize_user_copies_truthy m :
  exists out,
    GitHubClient._normalize_user_json (VDict m) = Ok (VDict out)
    /\ (forall key src, (key, src) ∈ string_fields ->
          truthy (field m src) = true -> out !! key = Some (field m src))
    /\ (truthy (field m "bio") = true -> out !! "bio" = Some (field m "bio"))
    /\ (forall key, key ∈ integer_fields ->
          truthy (field m key) = true -> out !! key = Some (field m key))
    /\ (truthy (field m "name") = true ->
          out !! "name" = Some (field m "name")).
Proof.
  destruct (normalize_user_fields m) as (out & Hout & Hname & Hstr & Hbio & Hint).
  exists out. split; [exact Hout|]. split; [|split; [|split]].
  - intros key src Hin Htruthy. by rewrite (Hstr _ _ Hin), py_or_truthy.
  - intros Htruthy. by rewrite Hbio, py_or_truthy.
  - intros key Hin Htruthy. rewrite (Hint _ Hin).
    unfold field in *. destruct (m !! key); [by rewrite py_or_truthy|done].
  - intros Htruthy. by rewrite Hname, py_or_truthy.
Qed.

Lemma normalized_profile_again m :
  normalized_profile (normalized_profile m)
  = <["profile_url" := VStr "N/A"]> (normalized_profile m).
Proof.
  pose proof (truthy_name m) as Hname.
  unfold normalized_profile, field in *.
  set (name := py_or _ (py_or _ (VStr "N/A"))) in *.
  repeat (rewrite lookup_insert_eq || rewrite lookup_insert_ne by done).
  rewrite !lookup_empty, !py_or_again.
  change (py_or VNone (VStr "N/A")) with (VStr "N/A").
  rewrite (py_or_truthy name (VStr "N/A")) by exact Hname.
  symmetry.
  do 15 (rewrite (insert_insert_ne _ "profile_url" _) by done; f_equal).
Qed.

(** X9.  Normalization is not its own fixed point: fed its own
    output, the normalizer returns the same profile except that
    profile_url, which it reads from the upstream key html_url, is
    replaced by "N/A". *)
Theorem normalize_user_twice m out :
  GitHubClient._normalize_user_json (VDict m) = Ok (VDict out) ->
  GitHubClient._normalize_user_json (VDict out)
  = Ok (VDict (<["profile_url" := VStr "N/A"]> out)).
Proof.
  rewrite normalize_user_is_normalized_profile. intros [= <-].
  by rewrite normalize_user_is_normalized_profile, normalized_profile_again.
Qed.

(** X10.  A repository record has exactly the nine keys the client
    writes, which are the keys of [RepoMetadata] without auto_tags, and
    each holds the upstream value as it is: a missing key gives None
    and a falsy value stays what it was, with no placeholder put in
    its place; upstream keys outside the nine are dropped. *)
Theorem normalized_repo_record repo :
  exists out,
    GitHubClient.normalized_repo (VDict repo) = Ok (VDict out)
    /\ keys_of out = list_to_set RepoMetadata_keys ∖ {["auto_tags"]}
    /\ (forall key src, (key, src) ∈ repo_fields ->
          out !! key = Some (field repo src)).
Proof.
  eexists. split; [apply normalized_repo_dict|]. split.
  - unfold keys_of. cbn [foldl fst snd]. rewrite !dom_insert_L, dom_empty_L.
    unfold RepoMetadata_keys. cbn [list_to_set foldr]. set_solver.
  - intros key src Hin. unfold repo_fields in Hin.
    repeat (apply elem_of_cons in Hin as [[= -> ->]|Hin]);
      [by simplify_map_eq ..|].
    by apply elem_of_nil in Hin.
Qed.

End NormalizeSpec.

(** ** More on credentials and activities *)

(** X11.  A configuration that is not a mapping is not read: when it
    is falsy (None, an empty list, an empty string, zero) both
    credentials come from the environment, and when it is truthy the
    call raises the attribute error of its missing [get]. *)
Theorem resolve_credentials_not_a_mapping (workflow_args : value)
    (environ : gmap string string) :
  (forall m, workflow_args <> VDict m) ->
  _resolve_credentials workflow_args environ
  = if truthy workflow_args
    then Raise (AttributeError (type_name workflow_args) "get")
    else Ok (getenv environ "GITHUB_USERNAME", getenv environ "GITHUB_PAT").
Proof.
  intros Hnot. unfold _resolve_credentials.
  destruct (truthy workflow_args) eqn:Htruthy; [|reflexivity].
  rewrite py_or_truthy by done.
  destruct workflow_args; try reflexivity. by destruct (Hnot d).
Qed.

(** X12.  A credential is resolved to a truthy value exactly when the
    configuration holds a truthy one or the environment variable is
    set to a non-empty string: an empty variable counts as none, and a
    falsy configuration entry is never what comes out when the
    variable is set. *)
Theorem resolve_credentials_truthy (config : gmap string value)
    (environ : gmap string string) :
  exists username pat,
    _resolve_credentials (VDict config) environ = Ok (username, pat)
    /\ truthy username
       = truthy (field config "username") || is_set environ "GITHUB_USERNAME"
    /\ truthy pat = truthy (field config "pat") || is_set environ "GITHUB_PAT".
Proof.
  eexists _, _. split; [apply resolve_credentials_dict|].
  unfold is_set.
  split; destruct (truthy (field config _)) eqn:H; by rewrite ?H.
Qed.

Section ActivitiesMore.
Context {Srv : Type} (serve : Srv -> Request -> Reply * Srv).
Implicit Types (w : World Srv).

(** X13.  Preflight looks at the token first: without a token it
    raises "Personal Access Token (PAT) is missing." whether or not
    there is a username, and only with a token and without a username
    does it raise "GitHub username is missing.". *)
Theorem preflight_check_reports_token_first workflow_args w username pat :
  _resolve_credentials workflow_args (env w) = Ok (username, pat) ->
  (truthy pat = false ->
     GitHubActivities.preflight_check serve workflow_args w
     = (Raise (ValueError "Personal Access Token (PAT) is missing."), w))
  /\ (truthy pat = true -> truthy username = false ->
        GitHubActivities.preflight_check serve workflow_args w
        = (Raise (ValueError "GitHub username is missing."), w)).
Proof.
  intros Hresolved. unfold GitHubActivities.preflight_check.
  rewrite Hresolved. split.
  - by intros ->.
  - by intros -> ->.
Qed.

(** X14.  Profile retrieval has no guard of its own: whatever the
    resolved credentials are, absent ones included, as long as a
    session can be opened with the token (there is none, or it is
    ASCII text), it makes exactly one call of [client.get], the
    profile request for that username over a session for that token.
    When the fetch gives a profile, the activity returns it and
    github_user_profile.json holds the very same value, the other
    files being untouched; when the fetch fails, the activity raises
    the fetch's error and no file changes. *)
Theorem retrieve_user_profile_activity_outcomes workflow_args w username pat :
  _resolve_credentials workflow_args (env w) = Ok (username, pat) ->
  encodable_token pat = true ->
  let rq := profile_request (session pat) username in
  let done :=
    GitHubActivities.retrieve_user_profile_activity serve workflow_args w in
  done.1 = profile_outcome (serve (upstream w) rq).1
  /\ sent done.2 = sent w ++ [rq]
  /\ env done.2 = env w
  /\ files done.2
     = match done.1 with
       | Ok user_metadata =>
           <["github_user_profile.json" := user_metadata]> (files w)
       | Raise _ => files w
       end.
Proof.
  intros Hresolved _ rq done. subst done rq.
  unfold GitHubActivities.retrieve_user_profile_activity.
  rewrite Hresolved, fetch_user_profile_data_once.
  by destruct (profile_outcome _).
Qed.

(** X15.  A request is authenticated exactly when the resolved token
    is truthy: with a token a session can be opened with (none, or
    ASCII text), the one call of a profile retrieval goes through a
    session that always has the Accept header, and the Authorization
    header if and only if there is a token; without one the call is
    still made, unauthenticated. *)
Theorem retrieve_user_profile_activity_headers workflow_args w username pat :
  _resolve_credentials workflow_args (env w) = Ok (username, pat) ->
  encodable_token pat = true ->
  let done :=
    GitHubActivities.retrieve_user_profile_activity serve workflow_args w in
  exists rq,
    sent done.2 = sent w ++ [rq]
    /\ header_names (req_client rq)
       = if truthy pat then ["Accept"; "Authorization"] else ["Accept"].
Proof.
  intros Hresolved _ done. subst done.
  unfold GitHubActivities.retrieve_user_profile_activity.
  rewrite Hresolved, fetch_user_profile_data_once.
  exists (profile_request (session pat) username). split.
  - by destruct (profile_outcome _).
  - unfold header_names, profile_request, session. cbn.
    by destruct (truthy pat).
Qed.


End ActivitiesMore.

(** ** More on the aggregation *)

Section AggregationSpec.
Context {Srv : Type}.
Implicit Types (w : World Srv).

Lemma summary_of_keys repo_count followers following public_gists :
  exists d,
    summary_of repo_count followers following public_gists = VDict d
    /\ keys_of d = list_to_set SummaryStats_keys.
Proof.
  eexists. split; [reflexivity|].
  unfold keys_of. cbn [foldl fst snd]. rewrite !dom_insert_L, dom_empty_L.
  unfold SummaryStats_keys. cbn [list_to_set foldr]. same_keys.
Qed.

(** X17.  The aggregation succeeds exactly on a mapping whose
    user_data is absent or a mapping and whose repo_data is absent or
    has a length.  When it succeeds the summary has exactly the four
    keys of [SummaryStats] and github_summary_stats.json holds the
    very same summary; when it raises, nothing is written. *)
Theorem compute_summary_stats_activity_domain (raw_data : value) w :
  let done := GitHubActivities.compute_summary_stats_activity raw_data w in
  is_Ok done.1
  = match raw_data with
    | VDict raw => absent_or_mapping (raw !! "user_data")
                   && absent_or_sized (raw !! "repo_data")
    | _ => false
    end
  /\ match done.1 with
     | Ok stats =>
         done.2 = dump_file "github_summary_stats.json" stats w
         /\ exists d, stats = VDict d
                      /\ keys_of d = list_to_set SummaryStats_keys
     | Raise _ => done.2 = w
     end.
Proof.
  intros done. subst done.
  unfold GitHubActivities.compute_summary_stats_activity.
  destruct raw_data as [| | | | | |raw]; [split; reflexivity ..|].
  cbn [py_get].
  destruct (raw !! "user_data") as [user_data|];
    destruct (raw !! "repo_data") as [repo_data|];
    cbn [mbind result_bind absent_or_mapping absent_or_sized py_len];
    try (destruct (py_len repo_data) as [repo_count|e];
         cbn [mbind result_bind is_Ok]);
    try (destruct user_data as [| | | | | |profile];
         cbn [mbind result_bind is_Ok andb get_or py_get]);
    try (split; reflexivity);
    (split; [reflexivity|]); (split; [reflexivity|]);
    apply summary_of_keys.
Qed.

(** X18.  On what the two retrievals return, the aggregation never
    raises and its second defaulting changes nothing: for a
    normalized profile and any list of records, the totals are the
    length of the list and the profile's own followers, following and
    public_gists entries. *)
Theorem summary_of_retrieved_data (m out : gmap string value)
    (records : list value) w :
  GitHubClient._normalize_user_json (VDict m) = Ok (VDict out) ->
  exists followers following public_gists,
    out !! "followers" = Some followers
    /\ out !! "following" = Some following
    /\ out !! "public_gists" = Some public_gists
    /\ let stats :=
         summary_of (Z.of_nat (length records))
           followers following public_gists in
       GitHubActivities.compute_summary_stats_activity
         (dict_literal [("user_data", VDict out); ("repo_data", VList records)])
         w
       = (Ok stats, dump_file "github_summary_stats.json" stats w).
Proof.
  intros Hout.
  destruct (normalize_user_fields m) as (out' & Hout' & _ & _ & _ & Hint).
  rewrite Hout in Hout'. injection Hout' as <-.
  eexists _, _, _.
  split; [apply (Hint "followers"); in_list|].
  split; [apply (Hint "following"); in_list|].
  split; [apply (Hint "public_gists"); in_list|].
  unfold GitHubActivities.compute_summary_stats_activity, dict_literal.
  cbn [foldl fst snd py_get].
  rewrite (lookup_insert_ne _ "repo_data" "user_data") by done.
  rewrite !lookup_insert_eq.
  cbn [mbind result_bind py_len]. rewrite !get_or_dict.
  rewrite (Hint "followers"), (Hint "following"), (Hint "public_gists")
    by in_list.
  by rewrite !py_or_again.
Qed.

End AggregationSpec.

(** ** More on the workflow *)

Section WorkflowMore.
Import GitHubWorkflow.
Context {Engine : Type}
  (execute_activity_method : Call -> Engine -> result value * Engine)
  (first_raised_first : Engine -> bool).
Implicit Types (self : WorkflowInterface) (g : Engine).

(** X19.  Preflight is a gate: when it fails, the run fails with the
    very same error and no other activity is handed to the engine. *)
Theorem run_stops_at_failed_preflight self workflow_config g :
  let out := run execute_activity_method first_raised_first self
               workflow_config g in
  failed preflight_check out.2 = true ->
  exists c0 e,
    out.2 = [(c0, Raise e)]
    /\ out.1.1 = Raise e
    /\ activity c0 = preflight_check
    /\ invoked retrieve_user_profile_activity out.2 = false
    /\ invoked retrieve_repositories_activity out.2 = false
    /\ invoked compute_summary_stats_activity out.2 = false.
Proof.
  intros out.
  destruct (run_shapes execute_activity_method first_raised_first self
              workflow_config g)
    as [(c0 & e & Htrace & Hout & H0)
       |[(c0 & v0 & c1 & r1 & c2 & r2 & e & Htrace & Hout & Hfail & H0 & H1 & H2)
        |(c0 & v0 & c1 & user_data & c2 & repo_data & c3 & r3
          & Htrace & Hout & H0 & H1 & H2 & H3 & Harg)]];
    fold out in Htrace, Hout; rewrite Htrace; clear Htrace.
  - intros _. exists c0, e. unfold invoked. cbn. rewrite H0. by cbn.
  - unfold failed. cbn. rewrite H0, H1, H2. cbn. by rewrite !andb_false_r.
  - unfold failed. cbn. rewrite H0, H1, H2, H3. cbn.
    by rewrite !andb_false_r.
Qed.

(** X20.  The run succeeds exactly when every call it made succeeded,
    and then it made all four calls and returns None, not the summary;
    when it fails, its error is the error of one of the calls it made,
    passed on as it was. *)
Theorem run_result_from_trace self workflow_config g :
  let out := run execute_activity_method first_raised_first self
               workflow_config g in
  is_Ok out.1.1 = forallb (fun ev : Event => is_Ok ev.2) out.2
  /\ (forall v, out.1.1 = Ok v -> v = VNone /\ length out.2 = 4%nat)
  /\ (forall e, out.1.1 = Raise e -> exists c, (c, Raise e) ∈ out.2).
Proof.
  intros out. subst out. unfold run.
  destruct (execute_activity_method _ g) as [[v0|e0] g0]; cbn zeta.
  2: { repeat split; [discriminate|discriminate|].
       intros e [= <-]. eexists. in_list. }
  destruct (execute_activity_method _ g0) as [r1 g1].
  destruct (execute_activity_method _ g1) as [r2 g2].
  destruct r1 as [user_data|e1], r2 as [repo_data|e2]; cbn [gather].
  2-4: repeat split; [discriminate|discriminate|];
    intros e [= <-]; try destruct (first_raised_first g0);
    eexists; in_list.
  destruct (execute_activity_method _ g2) as [[summary_stats|e3] g3];
    cbn; repeat split; try discriminate; try congruence.
  intros e [= <-]. eexists. in_list.
Qed.

(** X21.  The calls of a run follow the order in which the
    activities are registered: the activities called are a prefix of
    [get_activities], so none is called twice, out of turn or without
    being registered.  Every call carries the inherited heartbeat
    timeout, and every call but the aggregation is given the run's
    configuration unchanged. *)
Theorem run_calls_in_registered_order self workflow_config g :
  let out := run execute_activity_method first_raised_first self
               workflow_config g in
  activities_of out.2 `prefix_of` get_activities
  /\ forall c r, (c, r) ∈ out.2 ->
       heartbeat_timeout c = default_heartbeat_timeout self
       /\ (activity c <> compute_summary_stats_activity ->
           arg c = workflow_config).
Proof.
  intros out. subst out. unfold run.
  destruct (execute_activity_method _ g) as [[v0|e0] g0]; cbn zeta.
  2: { split; [by eexists|].
       intros c r [= -> _]%list_elem_of_singleton. by cbn. }
  destruct (execute_activity_method _ g0) as [r1 g1].
  destruct (execute_activity_method _ g1) as [r2 g2].
  destruct (gather _ r1 r2) as [[user_data repo_data]|e].
  1: destruct (execute_activity_method _ g2) as [[summary_stats|e3] g3].
  all: cbn [snd]; (split; [by eexists|]); intros c r Hin;
    repeat (apply elem_of_cons in Hin as [[= -> _]|Hin]; [by cbn|]);
    by apply elem_of_nil in Hin.
Qed.

End WorkflowMore.

(** ** Startup *)

(** X22.  Startup validation lets the program go on exactly when
    GITHUB_USERNAME and GITHUB_PAT are both set to non-empty strings
    once the .env file is loaded; otherwise it exits with status 1
    and reports the variables that are unset or empty, in the order
    username, token. *)
Theorem startup_validation (load_dotenv : gmap string string -> gmap string string)
    (environ : gmap string string) :
  let loaded := load_dotenv environ in
  _configure_and_validate_environment load_dotenv environ
  = if is_set loaded "GITHUB_USERNAME" && is_set loaded "GITHUB_PAT"
    then Validated loaded
    else SystemExit 1
           ((if is_set loaded "GITHUB_USERNAME" then []
             else ["GITHUB_USERNAME"])
            ++ (if is_set loaded "GITHUB_PAT" then [] else ["GITHUB_PAT"])).
Proof.
  intros loaded. subst loaded.
  unfold _configure_and_validate_environment, is_set, REQUIRED_ENV_VARS.
  cbn [List.filter].
  by do 2 destruct (truthy (getenv (load_dotenv environ) _)).
Qed.

Lemma profile_outcome_error (reply : Reply) (e : exn) :
  profile_outcome reply = Raise e -> is_configuration_error e = false.
Proof.
  unfold profile_outcome.
  destruct reply as [msg|response]; [by intros [= <-]|].
  unfold raise_for_status. destruct (_ && _);
    cbn [mbind result_bind]; [|by intros [= <-]].
  unfold response_json.
  destruct (body response) as [user_json|]; [|by intros [= <-]].
  change (GitHubClient._normalize_user_json user_json = Raise e ->
          is_configuration_error e = false).
  destruct user_json as [| | | | | |m]; try by intros [= <-].
  destruct (normalize_user_fields m) as (out & -> & _). discriminate.
Qed.

Lemma startup_validation_sets
    (load_dotenv : gmap string string -> gmap string string)
    (environ validated : gmap string string) :
  _configure_and_validate_environment load_dotenv environ = Validated validated ->
  truthy (getenv validated "GITHUB_USERNAME") = true
  /\ truthy (getenv validated "GITHUB_PAT") = true.
Proof.
  unfold _configure_and_validate_environment, REQUIRED_ENV_VARS.
  cbn [List.filter].
  destruct (truthy (getenv (load_dotenv environ) "GITHUB_USERNAME")) eqn:Hu;
    destruct (truthy (getenv (load_dotenv environ) "GITHUB_PAT")) eqn:Hp;
    cbn; try discriminate.
  by intros [= <-].
Qed.

(** X23.  What startup validation checks is what the guards of
    Preflight ask for: in an environment that passed it, with any
    configuration mapping, or with none, both credentials resolve to
    truthy values, so Preflight raises neither "Personal Access Token
    (PAT) is missing." nor "GitHub username is missing.". *)
Theorem validated_environment_passes_preflight {Srv : Type}
    (serve : Srv -> Request -> Reply * Srv)
    (load_dotenv : gmap string string -> gmap string string)
    (environ : gmap string string) (w : World Srv)
    (config : gmap string value) :
  _configure_and_validate_environment load_dotenv environ = Validated (env w) ->
  forall workflow_args, workflow_args = VDict config \/ workflow_args = VNone ->
    (exists username pat,
       _resolve_credentials workflow_args (env w) = Ok (username, pat)
       /\ truthy username = true /\ truthy pat = true)
    /\ forall msg,
         msg ∈ ["Personal Access Token (PAT) is missing.";
                "GitHub username is missing."] ->
         (GitHubActivities.preflight_check serve workflow_args w).1
         <> Raise (ValueError msg).
Proof.
  intros Hvalid workflow_args Hargs.
  pose proof (startup_validation_sets load_dotenv environ (env w) Hvalid)
    as [Huser Htoken].
  assert (exists username pat,
            _resolve_credentials workflow_args (env w) = Ok (username, pat)
            /\ truthy username = true /\ truthy pat = true)
    as (username & pat & Hresolved & Hu & Hp).
  { destruct Hargs as [-> | ->].
    - eexists _, _. split; [apply resolve_credentials_dict|].
      split; destruct (truthy (field config _)) eqn:Hconfig; done.
    - eexists _, _. split; [reflexivity|]. by split. }
  split; [by exists username, pat|].
  intros msg _. unfold GitHubActivities.preflight_check.
  rewrite Hresolved, Hp, Hu. cbn [negb].
  rewrite fetch_user_profile_data_once. cbn [fst snd].
  destruct (profile_outcome _) as [profile|e] eqn:Hprobe; [discriminate|].
  intros [= ->]. by apply profile_outcome_error in Hprobe.
Qed.

(** ** The further properties at work *)

(** A token with a letter that is not ASCII is not one a session can
    be opened with; the usual tokens and no token are. *)
Example encodable_token_examples :
  encodable_token (VStr "ghp_é") = false
  /\ encodable_token (VStr "ghp_token") = true
  /\ encodable_token VNone = true
  /\ can_open_session (GitHubClient.__init__ (VStr "ghp_é")) = false.
Proof. by vm_compute. Qed.


Lemma fetch_user_profile_data_outcomes_witness :
  let self := GitHubClient.__init__ (VStr "ghp_token") in
  let w := octocat_world [Answer {| status_code := 404;
                                    body := Some (VDict octocat_profile) |}] in
  let fetched :=
    GitHubClient.fetch_user_profile_data scripted self (VStr "octocat") w in
  fetched.1.1 = Raise (HTTPStatusError 404)
  /\ sent fetched.2
     = [profile_request (session (VStr "ghp_token")) (VStr "octocat")].
Proof.
  intros self w fetched.
  destruct (fetch_user_profile_data_outcomes scripted self (VStr "octocat") w)
    as [Hworld Hresult]; [reflexivity|].
  split; [exact Hresult|].
  fold fetched in Hworld. rewrite Hworld. reflexivity.
Defined.



Lemma normalize_user_twice_witness :
  let m : gmap string value :=
    {[ "login" := VStr "octocat";
       "html_url" := VStr "https://github.com/octocat" ]} in
  exists out,
    GitHubClient._normalize_user_json (VDict m) = Ok (VDict out)
    /\ out !! "profile_url" = Some (VStr "https://github.com/octocat")
    /\ exists again,
         GitHubClient._normalize_user_json (VDict out) = Ok (VDict again)
         /\ again !! "profile_url" = Some (VStr "N/A")
         /\ again !! "name" = out !! "name".
Proof.
  intros m. exists (normalized_profile m).
  pose proof (normalize_user_is_normalized_profile m) as Hout.
  split; [exact Hout|]. split; [vm_compute; reflexivity|].
  eexists. split; [exact (normalize_user_twice m _ Hout)|].
  split; [apply lookup_insert_eq|]. by rewrite lookup_insert_ne.
Defined.

Lemma resolve_credentials_not_a_mapping_witness :
  let environ : gmap string string := {[ "GITHUB_USERNAME" := "octocat" ]} in
  _resolve_credentials (VList [VStr "octocat"]) environ
  = Raise (AttributeError "list" "get")
  /\ _resolve_credentials (VStr "") environ = Ok (VStr "octocat", VNone).
Proof.
  intros environ. split.
  - rewrite resolve_credentials_not_a_mapping; [reflexivity|].
    intros m. discriminate.
  - rewrite resolve_credentials_not_a_mapping; [reflexivity|].
    intros m. discriminate.
Defined.

Lemma preflight_check_reports_token_first_witness :
  GitHubActivities.preflight_check scripted VNone
    {| env := ∅; upstream := []; sent := []; files := ∅ |}
  = (Raise (ValueError "Personal Access Token (PAT) is missing."),
     {| env := ∅; upstream := []; sent := []; files := ∅ |})
  /\ GitHubActivities.preflight_check scripted VNone (nameless_world [])
     = (Raise (ValueError "GitHub username is missing."), nameless_world []).
Proof.
  split.
  - destruct (preflight_check_reports_token_first scripted VNone
                {| env := ∅; upstream := []; sent := []; files := ∅ |}
                VNone VNone) as [Htoken _]; [reflexivity|].
    by apply Htoken.
  - destruct (preflight_check_reports_token_first scripted VNone
                (nameless_world []) VNone (VStr "ghp_token"))
      as [_ Hname]; [vm_compute; reflexivity|].
    by apply Hname.
Defined.

Lemma retrieve_user_profile_activity_outcomes_witness :
  let w := octocat_world [ok_json (VDict octocat_profile)] in
  let done :=
    GitHubActivities.retrieve_user_profile_activity scripted VNone w in
  done.1 = Ok (VDict (normalized_profile octocat_profile))
  /\ length (sent done.2) = 1%nat
  /\ files done.2
     = {[ "github_user_profile.json"
          := VDict (normalized_profile octocat_profile) ]}.
Proof.
  intros w done.
  destruct (retrieve_user_profile_activity_outcomes scripted VNone w
              (VStr "octocat") (VStr "ghp_token"))
    as (Hresult & Hsent & _ & Hfiles); [vm_compute; reflexivity..|].
  fold done in Hresult, Hsent, Hfiles.
  assert (done.1 = Ok (VDict (normalized_profile octocat_profile))) as Hok.
  { rewrite Hresult. vm_compute. reflexivity. }
  split; [exact Hok|]. split; [by rewrite Hsent|].
  rewrite Hfiles, Hok. reflexivity.
Defined.

Lemma retrieve_user_profile_activity_headers_witness :
  exists rq,
    sent (GitHubActivities.retrieve_user_profile_activity scripted VNone
            (tokenless_world [http_error 401])).2 = [rq]
    /\ header_names (req_client rq) = ["Accept"].
Proof.
  destruct (retrieve_user_profile_activity_headers scripted VNone
              (tokenless_world [http_error 401]) (VStr "octocat") VNone)
    as (rq & Hsent & Hheaders); [vm_compute; reflexivity..|].
  by exists rq.
Defined.



Lemma summary_of_retrieved_data_witness :
  exists followers following public_gists,
    normalized_profile octocat_profile !! "followers" = Some followers
    /\ normalized_profile octocat_profile !! "following" = Some following
    /\ normalized_profile octocat_profile !! "public_gists" = Some public_gists
    /\ (GitHubActivities.compute_summary_stats_activity
          (dict_literal
             [("user_data", VDict (normalized_profile octocat_profile));
              ("repo_data", VList (records_of short_pages))])
          (octocat_world [])).1
       = Ok (summary_of 3 followers following public_gists).
Proof.
  destruct (summary_of_retrieved_data octocat_profile
              (normalized_profile octocat_profile) (records_of short_pages)
              (octocat_world [])
              (normalize_user_is_normalized_profile octocat_profile))
    as (followers & following & public_gists & Hf & Hg & Hp & Hstats).
  exists followers, following, public_gists.
  split; [exact Hf|]. split; [exact Hg|]. split; [exact Hp|].
  cbv zeta in Hstats. rewrite Hstats. reflexivity.
Defined.

Lemma run_stops_at_failed_preflight_witness :
  let out :=
    GitHubWorkflow.run scripted_engine (fun _ => true) sdk_defaults (VDict ∅)
      [Raise (ValueError "Personal Access Token (PAT) is missing.")] in
  length out.2 = 1%nat
  /\ out.1.1 = Raise (ValueError "Personal Access Token (PAT) is missing.")
  /\ GitHubWorkflow.invoked GitHubWorkflow.retrieve_repositories_activity out.2
     = false.
Proof.
  intros out.
  destruct (run_stops_at_failed_preflight scripted_engine (fun _ => true)
              sdk_defaults (VDict ∅)
              [Raise (ValueError "Personal Access Token (PAT) is missing.")])
    as (c0 & e & Htrace & Hout & _ & _ & Hrepos & _); [reflexivity|].
  fold out in Htrace, Hout, Hrepos.
  split; [by rewrite Htrace|]. split; [reflexivity|exact Hrepos].
Defined.

Lemma validated_environment_passes_preflight_witness :
  let w := octocat_world [http_error 401] in
  let config : gmap string value := {[ "username" := VStr "" ]} in
  _resolve_credentials (VDict config) (env w)
  = Ok (VStr "octocat", VStr "ghp_token")
  /\ (GitHubActivities.preflight_check scripted (VDict config) w).1
     <> Raise (ValueError "GitHub username is missing.").
Proof.
  intros w config.
  destruct (validated_environment_passes_preflight scripted (fun e => e)
              (env w) w config) with (workflow_args := VDict config)
    as [_ Hguards]; [vm_compute; reflexivity|by left|].
  split; [vm_compute; reflexivity|].
  apply Hguards. in_list.
Defined.
